(** * rclone: the bisync remote-control entry point and the VFS options

    A shallow embedding of

    - [cmd/bisync/rc.go]: [GetPrefer] and [rcBisync], the remote-control
      front end that decodes a loosely-typed parameter map into the typed
      bisync option bundle and hands it to the reconciliation engine;
    - [vfs/vfscommon/options.go]: the [OptionsInfo] table, [DefaultOpt],
      [Options.Init] and the [TempFileHandlingMode] string conversions.

    Go values are modelled as follows: [string] is a byte string
    ([String.string]), fixed-width integers are [Z], a [(value, error)]
    result is a pair whose second component is an [option error] ([None]
    is Go's [nil]), and a [map[string]any] is a [gmap string Value]. *)

From Stdlib Require Import ZArith Lia String Ascii List.
From stdpp Require Import base option gmap strings list.

Local Open Scope Z_scope.
Local Open Scope string_scope.

(* ===================================================================== *)
(** * Go runtime and standard library pieces used by both packages      *)
(* ===================================================================== *)

Module Go.

(** Go's [error] interface, restricted to the dynamic types the two
    source files build or test for.  [ErrParamNotFound] and
    [ErrParamInvalid] are the two error types of the [rc] package that
    [rc.go] names; [errors_New] and [fmt_Errorf] are the two standard
    constructors it calls ([fmt_Errorf] keeps the format and its
    arguments apart instead of rendering [%q]); [ErrOther] stands for any
    error a collaborator may return. *)
Inductive error : Type :=
| ErrParamNotFound (key : string)
| ErrParamInvalid (inner : error)
| errors_New (msg : string)
| fmt_Errorf (format : string) (args : list string)
| ErrOther (what : string).

(** ** [strings.ToLower]

    The standard library lowers a pure-ASCII string byte by byte and
    otherwise maps [unicode.ToLower] over the runes; the second path is
    the parameter [unicodeLower] of [ToLower]. *)

Definition RuneSelf : N := 128.

Definition isUpperByte (c : ascii) : bool :=
  ((65 <=? N_of_ascii c) && (N_of_ascii c <=? 90))%N.

Definition lowerByte (c : ascii) : ascii :=
  if isUpperByte c then ascii_of_N (N_of_ascii c + 32) else c.

Fixpoint isASCII (s : string) : bool :=
  match s with
  | EmptyString => true
  | String c r => if (RuneSelf <=? N_of_ascii c)%N then false else isASCII r
  end.

Fixpoint hasUpper (s : string) : bool :=
  match s with
  | EmptyString => false
  | String c r => isUpperByte c || hasUpper r
  end.

Fixpoint mapBytes (f : ascii -> ascii) (s : string) : string :=
  match s with
  | EmptyString => EmptyString
  | String c r => String (f c) (mapBytes f r)
  end.

Definition ToLower (unicodeLower : string -> string) (s : string) : string :=
  if isASCII s then
    if negb (hasUpper s) then s else mapBytes lowerByte s
  else unicodeLower s.

(** ** [time] and [os] constants *)

Definition Nanosecond : Z := 1.
Definition Microsecond : Z := 1000 * Nanosecond.
Definition Millisecond : Z := 1000 * Microsecond.
Definition Second : Z := 1000 * Millisecond.
Definition Minute : Z := 60 * Second.

(** [os.ModeDir], [os.ModeSymlink] and [os.ModePerm] of [io/fs]. *)
Definition ModeDir : Z := Z.shiftl 1 31.
Definition ModeSymlink : Z := Z.shiftl 1 27.
Definition ModePerm : Z := 511.

(** [uint32] arithmetic: conversion of an integer and bitwise complement,
    both reduced modulo [2^32]. *)
Definition uint32 (z : Z) : Z := z mod 2 ^ 32.
Definition not32 (z : Z) : Z := uint32 (Z.lnot z).

End Go.

(* ===================================================================== *)
(** * The [rc] package: telling errors apart                             *)
(* ===================================================================== *)

Module Rc.
Import Go.

(** Modelled from the spec: [rc.IsErrParamNotFound] is defined in the
    [rc] package, outside the modelled sources.  It tells the missing
    keys of section 9 from the invalid ones: a type assertion on the
    error's dynamic type. *)
Definition IsErrParamNotFound (e : error) : bool :=
  match e with ErrParamNotFound _ => true | _ => false end.

(** The matching test for the invalid-parameter errors ([ConfigError]
    for an invalid option value in section 7). *)
Definition IsErrParamInvalid (e : error) : bool :=
  match e with ErrParamInvalid _ => true | _ => false end.

(** Modelled from the spec: [rc.NotErrParamNotFound] is defined in the
    [rc] package, outside the modelled sources.  As its name says and as
    [rc.go] uses it, it holds of an error that is neither [nil] nor a
    not-found error: a missing key (section 9) leaves the default in
    place, any other failure ends the call. *)
Definition NotErrParamNotFound (err : option error) : bool :=
  match err with
  | None => false
  | Some e => negb (IsErrParamNotFound e)
  end.

(** Modelled from the spec: [rc.NewErrParamInvalid] is defined in the
    [rc] package, outside the modelled sources; it wraps an error as an
    invalid-parameter error. *)
Definition NewErrParamInvalid (e : error) : error := ErrParamInvalid e.

End Rc.

(* ===================================================================== *)
(** * The [fs] package: the configuration object                         *)
(* ===================================================================== *)

Module RcloneFs.

(** [fs.ConfigInfo], with the two fields the modelled files touch:
    [rc.go] writes [DryRun], [options.go] reads [Links]. *)
Record ConfigInfo : Type := mkConfigInfo {
  ci_DryRun : bool;
  ci_Links : bool
}.

Definition set_ci_DryRun (v : bool) (ci : ConfigInfo) : ConfigInfo :=
  mkConfigInfo v (ci_Links ci).

End RcloneFs.

(* ===================================================================== *)
(** * vfs/vfscommon/options.go                                           *)
(* ===================================================================== *)

Module Vfscommon.
Import Go RcloneFs.

(** What [options.go] takes from files outside the two modelled ones:
    the [CacheMode] enumeration and its [CacheModeOff] member, the build
    target [runtime.GOOS], the per-platform [getUmask], [getUID] and
    [getGID], the constant [fs.LinkSuffix], and the rune-wise branch of
    [strings.ToLower]. *)
Class Platform : Type := {
  CacheMode : Type;
  CacheModeOff : CacheMode;
  GOOS : string;
  getUmask : Z;
  getUID : Z;
  getGID : Z;
  LinkSuffix : string;
  unicodeLower : string -> string
}.

(** [fs.Mebi], the binary prefix Mi as a [fs.SizeSuffix]: [1 << 20].  The
    constant is declared in the [fs] package. *)
Definition Mebi : Z := Z.shiftl 1 20.

(** [FileMode(x)]: conversion to the [uint32]-based [FileMode]. *)
Definition FileMode (z : Z) : Z := uint32 z.

(** The octal literals [0777] and [0666]. *)
Definition o777 : Z := 7 * 8 ^ 2 + 7 * 8 + 7.
Definition o666 : Z := 6 * 8 ^ 2 + 6 * 8 + 6.

(** ** [TempFileHandlingMode] ([type TempFileHandlingMode int], [iota]) *)

Definition TempFileHandlingMode : Type := Z.
Definition TempFileNormal : TempFileHandlingMode := 0.
Definition TempFileSafe : TempFileHandlingMode := 1.
Definition TempFileAggressive : TempFileHandlingMode := 2.

(** [func (m TempFileHandlingMode) String() string] *)
Definition String_ (m : TempFileHandlingMode) : string :=
  if Z.eqb m TempFileNormal then "normal"
  else if Z.eqb m TempFileSafe then "safe"
  else if Z.eqb m TempFileAggressive then "aggressive"
  else "unknown".

(** [func (m *TempFileHandlingMode) Set(s string) error]: the new value
    of the receiver and the returned error. *)
Definition Set_ `{Platform} (m : TempFileHandlingMode) (s : string)
  : TempFileHandlingMode * option error :=
  let l := ToLower unicodeLower s in
  if String.eqb l "normal" then (TempFileNormal, None)
  else if String.eqb l "safe" then (TempFileSafe, None)
  else if String.eqb l "aggressive" then (TempFileAggressive, None)
  else (m, Some (fmt_Errorf "unknown temp file handling mode %q" [s])).

(** ** [type Options struct] *)

Record Options `{Platform} : Type := mkOptions {
  NoSeek : bool;
  NoChecksum : bool;
  ReadOnly : bool;
  Links : bool;
  NoModTime : bool;
  DirCacheTime : Z;
  Refresh : bool;
  PollInterval : Z;
  Umask : Z;
  UID : Z;
  GID : Z;
  DirPerms : Z;
  FilePerms : Z;
  LinkPerms : Z;
  ChunkSize : Z;
  ChunkSizeLimit : Z;
  ChunkStreams : Z;
  CacheMode_ : CacheMode;
  CacheMaxAge : Z;
  CacheMaxSize : Z;
  CacheMinFreeSpace : Z;
  CachePollInterval : Z;
  CaseInsensitive : bool;
  BlockNormDupes : bool;
  WriteWait : Z;
  ReadWait : Z;
  WriteBack : Z;
  ReadAhead : Z;
  UsedIsSize : bool;
  FastFingerprint : bool;
  DiskSpaceTotalSize : Z;
  TempFileHandling : TempFileHandlingMode;
  TempFileTimeout : Z
}.

(** [var DefaultOpt = Options{...}] *)
Definition DefaultOpt `{Platform} : Options := {|
  NoSeek := false;
  NoChecksum := false;
  ReadOnly := false;
  Links := false;
  NoModTime := false;
  DirCacheTime := 5 * 60 * Second;
  Refresh := false;
  PollInterval := Minute;
  Umask := FileMode getUmask;
  UID := getUID;
  GID := getGID;
  DirPerms := FileMode o777;
  FilePerms := FileMode o666;
  LinkPerms := FileMode o666;
  ChunkSize := 128 * Mebi;
  ChunkSizeLimit := -1;
  ChunkStreams := 0;
  CacheMode_ := CacheModeOff;
  CacheMaxAge := 3600 * Second;
  CacheMaxSize := -1;
  CacheMinFreeSpace := -1;
  CachePollInterval := 60 * Second;
  CaseInsensitive := String.eqb GOOS "windows" || String.eqb GOOS "darwin";
  BlockNormDupes := false;
  WriteWait := 1000 * Millisecond;
  ReadWait := 20 * Millisecond;
  WriteBack := 5 * Second;
  ReadAhead := 0 * Mebi;
  UsedIsSize := false;
  FastFingerprint := false;
  DiskSpaceTotalSize := -1;
  TempFileHandling := TempFileSafe;
  TempFileTimeout := 5 * Minute
|}.

(** [var Opt = DefaultOpt] *)
Definition Opt `{Platform} : Options := DefaultOpt.

(** ** The [OptionsInfo] table

    [fs.Option.Default] is an [any]: a value together with its dynamic
    type, one constructor per type that occurs in the table. *)
Inductive DefaultValue `{Platform} : Type :=
| DBool (b : bool)
| DInt (n : Z)
| DUint32 (n : Z)
| DDuration (ns : Z)
| DSizeSuffix (n : Z)
| DFileMode (m : Z)
| DCacheMode (c : CacheMode).

Record OptionInfo `{Platform} : Type := mkOption {
  Name : string;
  Default : DefaultValue;
  Help : string;
  Groups : string
}.

(** [var OptionsInfo = fs.Options{...}] *)
Definition OptionsInfo `{Platform} : list OptionInfo := [
  mkOption _ "no_modtime" (DBool false)
    "Don't read/write the modification time (can speed things up)" "VFS";
  mkOption _ "no_checksum" (DBool false)
    "Don't compare checksums on up/download" "VFS";
  mkOption _ "no_seek" (DBool false)
    "Don't allow seeking in files" "VFS";
  mkOption _ "dir_cache_time" (DDuration (5 * 60 * Second))
    "Time to cache directory entries for" "VFS";
  mkOption _ "vfs_refresh" (DBool false)
    "Refreshes the directory cache recursively in the background on start" "VFS";
  mkOption _ "poll_interval" (DDuration Minute)
    "Time to wait between polling for changes, must be smaller than dir-cache-time and only on supported remotes (set 0 to disable)" "VFS";
  mkOption _ "read_only" (DBool false)
    "Only allow read-only access" "VFS";
  mkOption _ "vfs_links" (DBool false)
    ("Translate symlinks to/from regular files with a '" ++ LinkSuffix ++ "' extension for the VFS") "VFS";
  mkOption _ "vfs_cache_mode" (DCacheMode CacheModeOff)
    "Cache mode off|minimal|writes|full" "VFS";
  mkOption _ "vfs_cache_poll_interval" (DDuration (60 * Second))
    "Interval to poll the cache for stale objects" "VFS";
  mkOption _ "vfs_cache_max_age" (DDuration (3600 * Second))
    "Max time since last access of objects in the cache" "VFS";
  mkOption _ "vfs_cache_max_size" (DSizeSuffix (-1))
    "Max total size of objects in the cache" "VFS";
  mkOption _ "vfs_cache_min_free_space" (DSizeSuffix (-1))
    "Target minimum free space on the disk containing the cache" "VFS";
  mkOption _ "vfs_read_chunk_size" (DSizeSuffix (128 * Mebi))
    "Read the source objects in chunks" "VFS";
  mkOption _ "vfs_read_chunk_size_limit" (DSizeSuffix (-1))
    "If greater than --vfs-read-chunk-size, double the chunk size after each chunk read, until the limit is reached ('off' is unlimited)" "VFS";
  mkOption _ "vfs_read_chunk_streams" (DInt 0)
    "The number of parallel streams to read at once" "VFS";
  mkOption _ "dir_perms" (DFileMode (FileMode o777))
    "Directory permissions" "VFS";
  mkOption _ "file_perms" (DFileMode (FileMode o666))
    "File permissions" "VFS";
  mkOption _ "link_perms" (DFileMode (FileMode o666))
    "Link permissions" "VFS";
  mkOption _ "vfs_case_insensitive"
    (DBool (String.eqb GOOS "windows" || String.eqb GOOS "darwin"))
    "If a file name not found, find a case insensitive match" "VFS";
  mkOption _ "vfs_block_norm_dupes" (DBool false)
    "If duplicate filenames exist in the same directory (after normalization), log an error and hide the duplicates (may have a performance cost)" "VFS";
  mkOption _ "vfs_write_wait" (DDuration (1000 * Millisecond))
    "Time to wait for in-sequence write before giving error" "VFS";
  mkOption _ "vfs_read_wait" (DDuration (20 * Millisecond))
    "Time to wait for in-sequence read before seeking" "VFS";
  mkOption _ "vfs_write_back" (DDuration (5 * Second))
    "Time to writeback files after last use when using cache" "VFS";
  mkOption _ "vfs_read_ahead" (DSizeSuffix (0 * Mebi))
    "Extra read ahead over --buffer-size when using cache-mode full" "VFS";
  mkOption _ "vfs_used_is_size" (DBool false)
    "Use the `rclone size` algorithm for Used size" "VFS";
  mkOption _ "vfs_fast_fingerprint" (DBool false)
    "Use fast (less accurate) fingerprints for change detection" "VFS";
  mkOption _ "vfs_disk_space_total_size" (DSizeSuffix (-1))
    "Specify the total space of disk" "VFS";
  mkOption _ "umask" (DFileMode (FileMode getUmask))
    "Override the permission bits set by the filesystem (not supported on Windows)" "VFS";
  mkOption _ "uid" (DUint32 getUID)
    "Override the uid field set by the filesystem (not supported on Windows)" "VFS";
  mkOption _ "gid" (DUint32 getGID)
    "Override the gid field set by the filesystem (not supported on Windows)" "VFS"
].

(** The [config:"..."] struct tags of [Options]: each tagged field with
    its value boxed at the field's declared type.  [TempFileHandling] and
    [TempFileTimeout] carry [json] tags only and are not listed. *)
Definition configFields `{Platform} (o : Options) : list (string * DefaultValue) := [
  ("no_seek", DBool (NoSeek o));
  ("no_checksum", DBool (NoChecksum o));
  ("read_only", DBool (ReadOnly o));
  ("vfs_links", DBool (Links o));
  ("no_modtime", DBool (NoModTime o));
  ("dir_cache_time", DDuration (DirCacheTime o));
  ("vfs_refresh", DBool (Refresh o));
  ("poll_interval", DDuration (PollInterval o));
  ("umask", DFileMode (Umask o));
  ("uid", DUint32 (UID o));
  ("gid", DUint32 (GID o));
  ("dir_perms", DFileMode (DirPerms o));
  ("file_perms", DFileMode (FilePerms o));
  ("link_perms", DFileMode (LinkPerms o));
  ("vfs_read_chunk_size", DSizeSuffix (ChunkSize o));
  ("vfs_read_chunk_size_limit", DSizeSuffix (ChunkSizeLimit o));
  ("vfs_read_chunk_streams", DInt (ChunkStreams o));
  ("vfs_cache_mode", DCacheMode (CacheMode_ o));
  ("vfs_cache_max_age", DDuration (CacheMaxAge o));
  ("vfs_cache_max_size", DSizeSuffix (CacheMaxSize o));
  ("vfs_cache_min_free_space", DSizeSuffix (CacheMinFreeSpace o));
  ("vfs_cache_poll_interval", DDuration (CachePollInterval o));
  ("vfs_case_insensitive", DBool (CaseInsensitive o));
  ("vfs_block_norm_dupes", DBool (BlockNormDupes o));
  ("vfs_write_wait", DDuration (WriteWait o));
  ("vfs_read_wait", DDuration (ReadWait o));
  ("vfs_write_back", DDuration (WriteBack o));
  ("vfs_read_ahead", DSizeSuffix (ReadAhead o));
  ("vfs_used_is_size", DBool (UsedIsSize o));
  ("vfs_fast_fingerprint", DBool (FastFingerprint o));
  ("vfs_disk_space_total_size", DSizeSuffix (DiskSpaceTotalSize o))
].

(** The field of [o] tagged [config:"name"], if there is one. *)
Fixpoint assoc {A : Type} (name : string) (l : list (string * A)) : option A :=
  match l with
  | [] => None
  | (k, v) :: r => if String.eqb k name then Some v else assoc name r
  end.

Definition fieldByConfigTag `{Platform} (o : Options) (name : string)
  : option DefaultValue :=
  assoc name (configFields o).

(** ** [func (opt *Options) Init()]

    The argument [ci] is what [fs.GetConfig(context.Background())]
    returns, the global configuration. *)

Definition setLinks `{Platform} (v : bool) (o : Options) : Options :=
  mkOptions _ (NoSeek o) (NoChecksum o) (ReadOnly o) v (NoModTime o)
    (DirCacheTime o) (Refresh o) (PollInterval o) (Umask o) (UID o) (GID o)
    (DirPerms o) (FilePerms o) (LinkPerms o) (ChunkSize o) (ChunkSizeLimit o)
    (ChunkStreams o) (CacheMode_ o) (CacheMaxAge o) (CacheMaxSize o)
    (CacheMinFreeSpace o) (CachePollInterval o) (CaseInsensitive o)
    (BlockNormDupes o) (WriteWait o) (ReadWait o) (WriteBack o) (ReadAhead o)
    (UsedIsSize o) (FastFingerprint o) (DiskSpaceTotalSize o)
    (TempFileHandling o) (TempFileTimeout o).

Definition setPerms `{Platform} (d f l : Z) (o : Options) : Options :=
  mkOptions _ (NoSeek o) (NoChecksum o) (ReadOnly o) (Links o) (NoModTime o)
    (DirCacheTime o) (Refresh o) (PollInterval o) (Umask o) (UID o) (GID o)
    d f l (ChunkSize o) (ChunkSizeLimit o)
    (ChunkStreams o) (CacheMode_ o) (CacheMaxAge o) (CacheMaxSize o)
    (CacheMinFreeSpace o) (CachePollInterval o) (CaseInsensitive o)
    (BlockNormDupes o) (WriteWait o) (ReadWait o) (WriteBack o) (ReadAhead o)
    (UsedIsSize o) (FastFingerprint o) (DiskSpaceTotalSize o)
    (TempFileHandling o) (TempFileTimeout o).

Definition Init `{Platform} (ci : ConfigInfo) (opt : Options) : Options :=
  (* Override --vfs-links with --links if set *)
  let opt := if ci_Links ci then setLinks true opt else opt in
  (* Mask the permissions with the umask *)
  let opt := setPerms (Z.land (DirPerms opt) (not32 (Umask opt)))
                      (FilePerms opt) (LinkPerms opt) opt in
  let opt := setPerms (DirPerms opt)
                      (Z.land (FilePerms opt) (not32 (Umask opt)))
                      (LinkPerms opt) opt in
  let opt := setPerms (DirPerms opt) (FilePerms opt)
                      (Z.land (LinkPerms opt) (not32 (Umask opt))) opt in
  (* Make sure directories are returned as directories *)
  let opt := setPerms (Z.lor (DirPerms opt) (FileMode ModeDir))
                      (FilePerms opt) (LinkPerms opt) opt in
  (* Make sure links are returned as links *)
  setPerms (DirPerms opt) (FilePerms opt)
           (Z.lor (LinkPerms opt) (FileMode ModeSymlink)) opt.

(** ** Vocabulary for statements *)

(** The outcome of [Set]: the mode stored and whether an error came back. *)
Definition sameOutcome `{Platform} (m : TempFileHandlingMode) (s t : string) : Prop :=
  fst (Set_ m s) = fst (Set_ m t) /\
  (snd (Set_ m s) = None <-> snd (Set_ m t) = None).

(** Two build targets for evaluating the definitions. *)
Definition linux : Platform := {|
  CacheMode := nat;
  CacheModeOff := 0%nat;
  GOOS := "linux";
  getUmask := 18;
  getUID := 1000;
  getGID := 1000;
  LinkSuffix := ".rclonelink";
  unicodeLower := fun s => s
|}.

Definition darwin : Platform := {|
  CacheMode := nat;
  CacheModeOff := 0%nat;
  GOOS := "darwin";
  getUmask := 18;
  getUID := 501;
  getGID := 20;
  LinkSuffix := ".rclonelink";
  unicodeLower := fun s => s
|}.

End Vfscommon.

(* ===================================================================== *)
(** * cmd/bisync/rc.go                                                   *)
(* ===================================================================== *)

Module Bisync.
Import Go Rc RcloneFs.

(** ** Values and parameter maps

    [rc.Params] is [map[string]any].  [Value] lists the dynamic types a
    caller can put under a key; [VOther] covers every type the accessors
    have no conversion for. *)
Inductive Value : Type :=
| VNil
| VBool (b : bool)
| VInt64 (n : Z)
| VString (s : string)
| VOther (type_name : string).

#[global] Instance Value_eq_dec : EqDecision Value.
Proof. solve_decision. Defined.

Abbreviation Params := (gmap string Value).

(** Modelled from the spec: the [Prefer] enumeration is declared in a
    bisync file that is not among the modelled sources.  Section 4.4 and
    section 6 of the specification list its members: the conflict
    policies none, path1, path2, newer, older, larger and smaller. *)
Inductive Prefer : Type :=
| PreferNone
| PreferPath1
| PreferPath2
| PreferNewer
| PreferOlder
| PreferLarger
| PreferSmaller.

#[global] Instance Prefer_eq_dec : EqDecision Prefer.
Proof. solve_decision. Defined.

(** ** Collaborators

    The types [rc.go] only passes along: backend handles ([fs.Fs]) and
    the [CheckSyncMode] of the option bundle with its zero value. *)
Class ExtTypes : Type := {
  Fs : Type;
  CheckSyncMode : Type;
  CheckSyncZero : CheckSyncMode
}.

(** ** [type Options struct] of bisync

    The struct is declared in a bisync file outside the modelled sources;
    these are the fields [rcBisync] assigns, in the order it assigns
    them. *)

Record Options `{ExtTypes} : Type := mkOptions {
  DryRun : bool;
  MaxDelete : Z;
  Resync : bool;
  ResyncMode : Prefer;
  CheckAccess : bool;
  Force : bool;
  CreateEmptySrcDirs : bool;
  RemoveEmptyDirs : bool;
  NoCleanup : bool;
  IgnoreListingChecksum : bool;
  Resilient : bool;
  Recover : bool;
  CheckFilename : string;
  FiltersFile : string;
  Workdir : string;
  BackupDir1 : string;
  BackupDir2 : string;
  ConflictResolve : Prefer;
  ConflictSuffixFlag : string;
  CheckSync : CheckSyncMode
}.

Definition set_DryRun `{ExtTypes} (v : bool) (o : Options) : Options :=
  mkOptions _ v (MaxDelete o) (Resync o) (ResyncMode o) (CheckAccess o)
    (Force o) (CreateEmptySrcDirs o) (RemoveEmptyDirs o) (NoCleanup o)
    (IgnoreListingChecksum o) (Resilient o) (Recover o) (CheckFilename o)
    (FiltersFile o) (Workdir o) (BackupDir1 o) (BackupDir2 o)
    (ConflictResolve o) (ConflictSuffixFlag o) (CheckSync o).

Definition set_MaxDelete `{ExtTypes} (v : Z) (o : Options) : Options :=
  mkOptions _ (DryRun o) v (Resync o) (ResyncMode o) (CheckAccess o)
    (Force o) (CreateEmptySrcDirs o) (RemoveEmptyDirs o) (NoCleanup o)
    (IgnoreListingChecksum o) (Resilient o) (Recover o) (CheckFilename o)
    (FiltersFile o) (Workdir o) (BackupDir1 o) (BackupDir2 o)
    (ConflictResolve o) (ConflictSuffixFlag o) (CheckSync o).

Definition set_Resync `{ExtTypes} (v : bool) (o : Options) : Options :=
  mkOptions _ (DryRun o) (MaxDelete o) v (ResyncMode o) (CheckAccess o)
    (Force o) (CreateEmptySrcDirs o) (RemoveEmptyDirs o) (NoCleanup o)
    (IgnoreListingChecksum o) (Resilient o) (Recover o) (CheckFilename o)
    (FiltersFile o) (Workdir o) (BackupDir1 o) (BackupDir2 o)
    (ConflictResolve o) (ConflictSuffixFlag o) (CheckSync o).

Definition set_ResyncMode `{ExtTypes} (v : Prefer) (o : Options) : Options :=
  mkOptions _ (DryRun o) (MaxDelete o) (Resync o) v (CheckAccess o)
    (Force o) (CreateEmptySrcDirs o) (RemoveEmptyDirs o) (NoCleanup o)
    (IgnoreListingChecksum o) (Resilient o) (Recover o) (CheckFilename o)
    (FiltersFile o) (Workdir o) (BackupDir1 o) (BackupDir2 o)
    (ConflictResolve o) (ConflictSuffixFlag o) (CheckSync o).

Definition set_CheckAccess `{ExtTypes} (v : bool) (o : Options) : Options :=
  mkOptions _ (DryRun o) (MaxDelete o) (Resync o) (ResyncMode o) v (Force o)
    (CreateEmptySrcDirs o) (RemoveEmptyDirs o) (NoCleanup o)
    (IgnoreListingChecksum o) (Resilient o) (Recover o) (CheckFilename o)
    (FiltersFile o) (Workdir o) (BackupDir1 o) (BackupDir2 o)
    (ConflictResolve o) (ConflictSuffixFlag o) (CheckSync o).

Definition set_Force `{ExtTypes} (v : bool) (o : Options) : Options :=
  mkOptions _ (DryRun o) (MaxDelete o) (Resync o) (ResyncMode o)
    (CheckAccess o) v (CreateEmptySrcDirs o) (RemoveEmptyDirs o)
    (NoCleanup o) (IgnoreListingChecksum o) (Resilient o) (Recover o)
    (CheckFilename o) (FiltersFile o) (Workdir o) (BackupDir1 o)
    (BackupDir2 o) (ConflictResolve o) (ConflictSuffixFlag o) (CheckSync o).

Definition set_CreateEmptySrcDirs `{ExtTypes} (v : bool) (o : Options) : Options :=
  mkOptions _ (DryRun o) (MaxDelete o) (Resync o) (ResyncMode o)
    (CheckAccess o) (Force o) v (RemoveEmptyDirs o) (NoCleanup o)
    (IgnoreListingChecksum o) (Resilient o) (Recover o) (CheckFilename o)
    (FiltersFile o) (Workdir o) (BackupDir1 o) (BackupDir2 o)
    (ConflictResolve o) (ConflictSuffixFlag o) (CheckSync o).

Definition set_RemoveEmptyDirs `{ExtTypes} (v : bool) (o : Options) : Options :=
  mkOptions _ (DryRun o) (MaxDelete o) (Resync o) (ResyncMode o)
    (CheckAccess o) (Force o) (CreateEmptySrcDirs o) v (NoCleanup o)
    (IgnoreListingChecksum o) (Resilient o) (Recover o) (CheckFilename o)
    (FiltersFile o) (Workdir o) (BackupDir1 o) (BackupDir2 o)
    (ConflictResolve o) (ConflictSuffixFlag o) (CheckSync o).

Definition set_NoCleanup `{ExtTypes} (v : bool) (o : Options) : Options :=
  mkOptions _ (DryRun o) (MaxDelete o) (Resync o) (ResyncMode o)
    (CheckAccess o) (Force o) (CreateEmptySrcDirs o) (RemoveEmptyDirs o) v
    (IgnoreListingChecksum o) (Resilient o) (Recover o) (CheckFilename o)
    (FiltersFile o) (Workdir o) (BackupDir1 o) (BackupDir2 o)
    (ConflictResolve o) (ConflictSuffixFlag o) (CheckSync o).

Definition set_IgnoreListingChecksum `{ExtTypes} (v : bool) (o : Options) : Options :=
  mkOptions _ (DryRun o) (MaxDelete o) (Resync o) (ResyncMode o)
    (CheckAccess o) (Force o) (CreateEmptySrcDirs o) (RemoveEmptyDirs o)
    (NoCleanup o) v (Resilient o) (Recover o) (CheckFilename o)
    (FiltersFile o) (Workdir o) (BackupDir1 o) (BackupDir2 o)
    (ConflictResolve o) (ConflictSuffixFlag o) (CheckSync o).

Definition set_Resilient `{ExtTypes} (v : bool) (o : Options) : Options :=
  mkOptions _ (DryRun o) (MaxDelete o) (Resync o) (ResyncMode o)
    (CheckAccess o) (Force o) (CreateEmptySrcDirs o) (RemoveEmptyDirs o)
    (NoCleanup o) (IgnoreListingChecksum o) v (Recover o) (CheckFilename o)
    (FiltersFile o) (Workdir o) (BackupDir1 o) (BackupDir2 o)
    (ConflictResolve o) (ConflictSuffixFlag o) (CheckSync o).

Definition set_Recover `{ExtTypes} (v : bool) (o : Options) : Options :=
  mkOptions _ (DryRun o) (MaxDelete o) (Resync o) (ResyncMode o)
    (CheckAccess o) (Force o) (CreateEmptySrcDirs o) (RemoveEmptyDirs o)
    (NoCleanup o) (IgnoreListingChecksum o) (Resilient o) v
    (CheckFilename o) (FiltersFile o) (Workdir o) (BackupDir1 o)
    (BackupDir2 o) (ConflictResolve o) (ConflictSuffixFlag o) (CheckSync o).

Definition set_CheckFilename `{ExtTypes} (v : string) (o : Options) : Options :=
  mkOptions _ (DryRun o) (MaxDelete o) (Resync o) (ResyncMode o)
    (CheckAccess o) (Force o) (CreateEmptySrcDirs o) (RemoveEmptyDirs o)
    (NoCleanup o) (IgnoreListingChecksum o) (Resilient o) (Recover o) v
    (FiltersFile o) (Workdir o) (BackupDir1 o) (BackupDir2 o)
    (ConflictResolve o) (ConflictSuffixFlag o) (CheckSync o).

Definition set_FiltersFile `{ExtTypes} (v : string) (o : Options) : Options :=
  mkOptions _ (DryRun o) (MaxDelete o) (Resync o) (ResyncMode o)
    (CheckAccess o) (Force o) (CreateEmptySrcDirs o) (RemoveEmptyDirs o)
    (NoCleanup o) (IgnoreListingChecksum o) (Resilient o) (Recover o)
    (CheckFilename o) v (Workdir o) (BackupDir1 o) (BackupDir2 o)
    (ConflictResolve o) (ConflictSuffixFlag o) (CheckSync o).

Definition set_Workdir `{ExtTypes} (v : string) (o : Options) : Options :=
  mkOptions _ (DryRun o) (MaxDelete o) (Resync o) (ResyncMode o)
    (CheckAccess o) (Force o) (CreateEmptySrcDirs o) (RemoveEmptyDirs o)
    (NoCleanup o) (IgnoreListingChecksum o) (Resilient o) (Recover o)
    (CheckFilename o) (FiltersFile o) v (BackupDir1 o) (BackupDir2 o)
    (ConflictResolve o) (ConflictSuffixFlag o) (CheckSync o).

Definition set_BackupDir1 `{ExtTypes} (v : string) (o : Options) : Options :=
  mkOptions _ (DryRun o) (MaxDelete o) (Resync o) (ResyncMode o)
    (CheckAccess o) (Force o) (CreateEmptySrcDirs o) (RemoveEmptyDirs o)
    (NoCleanup o) (IgnoreListingChecksum o) (Resilient o) (Recover o)
    (CheckFilename o) (FiltersFile o) (Workdir o) v (BackupDir2 o)
    (ConflictResolve o) (ConflictSuffixFlag o) (CheckSync o).

Definition set_BackupDir2 `{ExtTypes} (v : string) (o : Options) : Options :=
  mkOptions _ (DryRun o) (MaxDelete o) (Resync o) (ResyncMode o)
    (CheckAccess o) (Force o) (CreateEmptySrcDirs o) (RemoveEmptyDirs o)
    (NoCleanup o) (IgnoreListingChecksum o) (Resilient o) (Recover o)
    (CheckFilename o) (FiltersFile o) (Workdir o) (BackupDir1 o) v
    (ConflictResolve o) (ConflictSuffixFlag o) (CheckSync o).

Definition set_ConflictResolve `{ExtTypes} (v : Prefer) (o : Options) : Options :=
  mkOptions _ (DryRun o) (MaxDelete o) (Resync o) (ResyncMode o)
    (CheckAccess o) (Force o) (CreateEmptySrcDirs o) (RemoveEmptyDirs o)
    (NoCleanup o) (IgnoreListingChecksum o) (Resilient o) (Recover o)
    (CheckFilename o) (FiltersFile o) (Workdir o) (BackupDir1 o)
    (BackupDir2 o) v (ConflictSuffixFlag o) (CheckSync o).

Definition set_ConflictSuffixFlag `{ExtTypes} (v : string) (o : Options) : Options :=
  mkOptions _ (DryRun o) (MaxDelete o) (Resync o) (ResyncMode o)
    (CheckAccess o) (Force o) (CreateEmptySrcDirs o) (RemoveEmptyDirs o)
    (NoCleanup o) (IgnoreListingChecksum o) (Resilient o) (Recover o)
    (CheckFilename o) (FiltersFile o) (Workdir o) (BackupDir1 o)
    (BackupDir2 o) (ConflictResolve o) v (CheckSync o).

Definition set_CheckSync `{ExtTypes} (v : CheckSyncMode) (o : Options) : Options :=
  mkOptions _ (DryRun o) (MaxDelete o) (Resync o) (ResyncMode o)
    (CheckAccess o) (Force o) (CreateEmptySrcDirs o) (RemoveEmptyDirs o)
    (NoCleanup o) (IgnoreListingChecksum o) (Resilient o) (Recover o)
    (CheckFilename o) (FiltersFile o) (Workdir o) (BackupDir1 o)
    (BackupDir2 o) (ConflictResolve o) (ConflictSuffixFlag o) v.

(** [&Options{}]: every field at its zero value. *)
Definition Options_zero `{ExtTypes} : Options :=
  mkOptions _ false 0 false PreferNone false false false false false false
    false false "" "" "" "" "" PreferNone "" CheckSyncZero.

(** The functions [rc.go] calls and does not define: the accessors of
    [rc.Params] ([GetBool], [GetInt64], [GetString]), [CheckSyncMode.Set]
    (new receiver value and error), [rc.GetFsNamed] and the engine
    [Bisync] wrapped in [bilib.CaptureOutput] (captured text and error).
    The context argument of the last two is the request-scoped
    configuration it carries. *)
Class Collaborators `{ExtTypes} : Type := {
  GetBool : Params -> string -> bool * option error;
  GetInt64 : Params -> string -> Z * option error;
  GetString : Params -> string -> string * option error;
  CheckSync_Set : CheckSyncMode -> string -> CheckSyncMode * option error;
  GetFsNamed : ConfigInfo -> Params -> string -> Fs * option error;
  Bisync : ConfigInfo -> Fs -> Fs -> Options -> string * option error
}.

(** [int(x)] for an [int64] [x]: wrap-around to the signed 64-bit range
    of [int] on the 64-bit targets. *)
Definition int_ (x : Z) : Z := (x + 2 ^ 63) mod 2 ^ 64 - 2 ^ 63.

(** ** [func GetPrefer(key string, p rc.Params) (Prefer, error)] *)
Definition GetPrefer `{Collaborators} (key : string) (p : Params)
  : Prefer * option error :=
  let '(str, err) := GetString p key in
  match err with
  | Some _ => (PreferNone, err)
  | None =>
      if String.eqb str "none" then (PreferNone, None)
      else if String.eqb str "path1" then (PreferPath1, None)
      else if String.eqb str "path2" then (PreferPath2, None)
      else if String.eqb str "newer" then (PreferNewer, None)
      else if String.eqb str "older" then (PreferOlder, None)
      else if String.eqb str "larger" then (PreferLarger, None)
      else if String.eqb str "smaller" then (PreferSmaller, None)
      else (PreferNone,
            Some (ErrParamInvalid
                    (fmt_Errorf "invalid prefer value %q for key %q"
                                [str; key])))
  end.

(** ** The machine [rcBisync] runs on

    One call owns the option bundle [opt], the request-scoped
    configuration [ci], the named results [out] and [err], and emits the
    calls it makes to collaborators that act on the world. *)
Inductive Event `{ExtTypes} : Type :=
| EvCheckSyncSet (s : string)
| EvGetFsNamed (ci : ConfigInfo) (name : string)
| EvBisync (ci : ConfigInfo) (fs1 fs2 : Fs) (opt : Options)
| EvLogWrite (output : string).

Record St `{ExtTypes} : Type := mkSt {
  opt : Options;
  ci : ConfigInfo;
  out : option Params;
  err : option error;
  trace : list Event
}.

(** A statement either falls through to the next one or returns from the
    function; both carry the state. *)
Inductive Step `{ExtTypes} (A : Type) : Type :=
| Next (a : A) (s : St)
| Return (s : St).
Arguments Next {_ A} a s.
Arguments Return {_ A} s.

Definition M `{ExtTypes} (A : Type) : Type := St -> Step A.

Definition ret `{ExtTypes} {A : Type} (a : A) : M A := fun s => Next a s.

Definition bind `{ExtTypes} {A B : Type} (m : M A) (k : A -> M B) : M B :=
  fun s => match m s with
           | Next a s' => k a s'
           | Return s' => Return s'
           end.

Notation "x <- m ;; k" := (bind m (fun x => k))
  (at level 100, m at next level, right associativity).
Notation "m ;;; k" := (bind m (fun _ => k))
  (at level 100, right associativity).

Definition get_opt `{ExtTypes} : M Options := fun s => Next (opt s) s.
Definition get_ci `{ExtTypes} : M ConfigInfo := fun s => Next (ci s) s.

Definition modify_opt `{ExtTypes} (f : Options -> Options) : M unit :=
  fun s => Next tt (mkSt _ (f (opt s)) (ci s) (out s) (err s) (trace s)).

Definition modify_ci `{ExtTypes} (f : ConfigInfo -> ConfigInfo) : M unit :=
  fun s => Next tt (mkSt _ (opt s) (f (ci s)) (out s) (err s) (trace s)).

(** Assignment to the named result [err]. *)
Definition set_err `{ExtTypes} (e : option error) : M unit :=
  fun s => Next tt (mkSt _ (opt s) (ci s) (out s) e (trace s)).

Definition emit `{ExtTypes} (ev : Event) : M unit :=
  fun s => Next tt (mkSt _ (opt s) (ci s) (out s) (err s) (trace s ++ [ev])).

(** A bare [return]: the named results as they stand. *)
Definition naked_return `{ExtTypes} {A : Type} : M A := fun s => Return s.

(** [return o, e]. *)
Definition return_ `{ExtTypes} {A : Type} (o : option Params) (e : option error)
  : M A :=
  fun s => Return (mkSt _ (opt s) (ci s) o e (trace s)).

(** [if opt.F, err = call; rc.NotErrParamNotFound(err) { return }] *)
Definition assign `{ExtTypes} {A : Type} (set_F : A -> Options -> Options)
  (r : A * option error) : M unit :=
  modify_opt (set_F (fst r)) ;;;
  set_err (snd r) ;;;
  if NotErrParamNotFound (snd r) then naked_return else ret tt.

(** The state after the first two statements: [opt := &Options{}] and
    [octx, ci := fs.AddConfig(ctx)], where [ci0] is the configuration
    that [ctx] carries and [ci] a copy of it owned by this call. *)
Definition St_init `{ExtTypes} (ci0 : ConfigInfo) : St :=
  mkSt _ Options_zero ci0 None None [].

Definition final `{ExtTypes} {A : Type} (r : Step A) : St :=
  match r with Next _ s => s | Return s => s end.

(** ** [func rcBisync(ctx context.Context, in rc.Params) (out rc.Params, err error)]

    The body is cut where the source leaves blank lines: the [dryRun]
    block, the [maxDelete] block, the run of assignments from [resync] to
    [conflictsuffix], the [checkSync] block, and the resolution of the
    two locations followed by the engine. *)

(** Lines 56-61.  [err] here is the block's own variable. *)
Definition rcBisync_dryRun `{Collaborators} (in_ : Params) : M unit :=
  let '(dryRun, e) := GetBool in_ "dryRun" in
  match e with
  | None => modify_ci (set_ci_DryRun dryRun) ;;; modify_opt (set_DryRun dryRun)
  | Some _ => if NotErrParamNotFound e then return_ None e else ret tt
  end.

(** Lines 63-70. *)
Definition rcBisync_maxDelete `{Collaborators} (in_ : Params) : M unit :=
  let '(maxDelete, e) := GetInt64 in_ "maxDelete" in
  match e with
  | None =>
      if Z.ltb maxDelete 0 || Z.gtb maxDelete 100 then
        return_ None
          (Some (NewErrParamInvalid
             (errors_New "maxDelete must be a percentage between 0 and 100")))
      else modify_opt (set_MaxDelete (int_ maxDelete))
  | Some _ => if NotErrParamNotFound e then return_ None e else ret tt
  end.

(** Lines 72-122. *)
Definition rcBisync_flags `{Collaborators} (in_ : Params) : M unit :=
  assign set_Resync (GetBool in_ "resync") ;;;
  assign set_ResyncMode (GetPrefer "resyncmode" in_) ;;;
  assign set_CheckAccess (GetBool in_ "checkAccess") ;;;
  assign set_Force (GetBool in_ "force") ;;;
  assign set_CreateEmptySrcDirs (GetBool in_ "createEmptySrcDirs") ;;;
  assign set_RemoveEmptyDirs (GetBool in_ "removeEmptyDirs") ;;;
  assign set_NoCleanup (GetBool in_ "noCleanup") ;;;
  assign set_IgnoreListingChecksum (GetBool in_ "ignoreListingChecksum") ;;;
  assign set_Resilient (GetBool in_ "resilient") ;;;
  assign set_Recover (GetBool in_ "recover") ;;;
  assign set_CheckFilename (GetString in_ "checkFilename") ;;;
  assign set_FiltersFile (GetString in_ "filtersFile") ;;;
  assign set_Workdir (GetString in_ "workdir") ;;;
  assign set_BackupDir1 (GetString in_ "backupdir1") ;;;
  assign set_BackupDir2 (GetString in_ "backupdir2") ;;;
  assign set_ConflictResolve (GetPrefer "conflictresolve" in_) ;;;
  assign set_ConflictSuffixFlag (GetString in_ "conflictsuffix").

(** Lines 124-133.  [checkSync, err := ...] assigns the named result
    [err]; the error of [Set] is the [if]'s own variable. *)
Definition rcBisync_checkSync `{Collaborators} (in_ : Params) : M unit :=
  let '(checkSync, e) := GetString in_ "checkSync" in
  set_err e ;;;
  if NotErrParamNotFound e then return_ None e else
  let checkSync := if String.eqb checkSync "" then "true" else checkSync in
  o <- get_opt ;;
  emit (EvCheckSyncSet checkSync) ;;;
  let '(m, e) := CheckSync_Set (CheckSync o) checkSync in
  modify_opt (set_CheckSync m) ;;;
  match e with
  | Some _ => return_ None e
  | None => ret tt
  end.

(** Lines 135-149.  [octx] carries [ci]; [string(output)] is the captured
    bytes as a string. *)
Definition rcBisync_paths `{Collaborators} (in_ : Params) : M unit :=
  c <- get_ci ;;
  emit (EvGetFsNamed c "path1") ;;;
  let '(fs1, e) := GetFsNamed c in_ "path1" in
  set_err e ;;;
  match e with
  | Some _ => return_ None e
  | None =>
  emit (EvGetFsNamed c "path2") ;;;
  let '(fs2, e) := GetFsNamed c in_ "path2" in
  set_err e ;;;
  match e with
  | Some _ => return_ None e
  | None =>
  o <- get_opt ;;
  emit (EvBisync c fs1 fs2 o) ;;;
  let '(output, e) := Bisync c fs1 fs2 o in
  set_err e ;;;
  emit (EvLogWrite output) ;;;
  return_ (Some {[ "output" := VString output ]}) e
  end end.

Definition rcBisync_body `{Collaborators} (in_ : Params) : M unit :=
  rcBisync_dryRun in_ ;;;
  rcBisync_maxDelete in_ ;;;
  rcBisync_flags in_ ;;;
  rcBisync_checkSync in_ ;;;
  rcBisync_paths in_.

(** The state in which a call of [rcBisync] ends: its results [out] and
    [err], what became of [opt] and [ci], and the calls it made. *)
Definition rcBisync `{Collaborators} (ci0 : ConfigInfo) (in_ : Params) : St :=
  final (rcBisync_body in_ (St_init ci0)).

(** ** Vocabulary for statements about [rcBisync] *)

(** A decoding step lets the call go on when its error is [nil] or says
    that the key is missing. *)
Definition passes (e : option error) : bool := negb (NotErrParamNotFound e).

(** The error of the [maxDelete] block: the accessor's, or the range
    check's. *)
Definition maxDelete_err `{Collaborators} (in_ : Params) : option error :=
  match GetInt64 in_ "maxDelete" with
  | (v, None) =>
      if Z.ltb v 0 || Z.gtb v 100 then
        Some (NewErrParamInvalid
                (errors_New "maxDelete must be a percentage between 0 and 100"))
      else None
  | (_, e) => e
  end.

(** The errors of the assignments from [resync] to [conflictsuffix], in
    source order. *)
Definition flag_errors `{Collaborators} (in_ : Params) : list (option error) := [
  snd (GetBool in_ "resync");
  snd (GetPrefer "resyncmode" in_);
  snd (GetBool in_ "checkAccess");
  snd (GetBool in_ "force");
  snd (GetBool in_ "createEmptySrcDirs");
  snd (GetBool in_ "removeEmptyDirs");
  snd (GetBool in_ "noCleanup");
  snd (GetBool in_ "ignoreListingChecksum");
  snd (GetBool in_ "resilient");
  snd (GetBool in_ "recover");
  snd (GetString in_ "checkFilename");
  snd (GetString in_ "filtersFile");
  snd (GetString in_ "workdir");
  snd (GetString in_ "backupdir1");
  snd (GetString in_ "backupdir2");
  snd (GetPrefer "conflictresolve" in_);
  snd (GetString in_ "conflictsuffix")
].

(** The errors of all the decoding steps up to and including the read of
    [checkSync], in source order. *)
Definition decode_errors `{Collaborators} (in_ : Params) : list (option error) :=
  snd (GetBool in_ "dryRun") :: maxDelete_err in_ ::
  flag_errors in_ ++ [snd (GetString in_ "checkSync")].

Fixpoint first_failure (l : list (option error)) : option error :=
  match l with
  | [] => None
  | e :: r => if passes e then first_failure r else e
  end.

(** Every parameter is read without an aborting error. *)
Definition keys_decode `{Collaborators} (in_ : Params) : bool :=
  forallb passes (decode_errors in_).

(** The string handed to [CheckSync.Set]. *)
Definition checkSyncArg `{Collaborators} (in_ : Params) : string :=
  let checkSync := fst (GetString in_ "checkSync") in
  if String.eqb checkSync "" then "true" else checkSync.

(** Every parameter decodes: the keys are read and [CheckSync.Set]
    accepts its argument. *)
Definition params_decode `{Collaborators} (in_ : Params) : bool :=
  keys_decode in_ &&
  match snd (CheckSync_Set CheckSyncZero (checkSyncArg in_)) with
  | None => true
  | Some _ => false
  end.

(** The request-scoped configuration once [dryRun] has been read. *)
Definition reqConfig `{Collaborators} (ci0 : ConfigInfo) (in_ : Params)
  : ConfigInfo :=
  match GetBool in_ "dryRun" with
  | (dryRun, None) => set_ci_DryRun dryRun ci0
  | _ => ci0
  end.

(** The option bundle once every parameter has been read. *)
Definition decodedOptions `{Collaborators} (in_ : Params) : Options := {|
  DryRun := match GetBool in_ "dryRun" with (b, None) => b | _ => false end;
  MaxDelete := match GetInt64 in_ "maxDelete" with
               | (v, None) => int_ v
               | _ => 0
               end;
  Resync := fst (GetBool in_ "resync");
  ResyncMode := fst (GetPrefer "resyncmode" in_);
  CheckAccess := fst (GetBool in_ "checkAccess");
  Force := fst (GetBool in_ "force");
  CreateEmptySrcDirs := fst (GetBool in_ "createEmptySrcDirs");
  RemoveEmptyDirs := fst (GetBool in_ "removeEmptyDirs");
  NoCleanup := fst (GetBool in_ "noCleanup");
  IgnoreListingChecksum := fst (GetBool in_ "ignoreListingChecksum");
  Resilient := fst (GetBool in_ "resilient");
  Recover := fst (GetBool in_ "recover");
  CheckFilename := fst (GetString in_ "checkFilename");
  FiltersFile := fst (GetString in_ "filtersFile");
  Workdir := fst (GetString in_ "workdir");
  BackupDir1 := fst (GetString in_ "backupdir1");
  BackupDir2 := fst (GetString in_ "backupdir2");
  ConflictResolve := fst (GetPrefer "conflictresolve" in_);
  ConflictSuffixFlag := fst (GetString in_ "conflictsuffix");
  CheckSync := fst (CheckSync_Set CheckSyncZero (checkSyncArg in_))
|}.

(** The option bundle after each of the first three blocks, when the
    block lets the call go on. *)
Definition dryRunOpt `{Collaborators} (in_ : Params) (o : Options) : Options :=
  match GetBool in_ "dryRun" with
  | (b, None) => set_DryRun b o
  | _ => o
  end.

Definition maxDeleteOpt `{Collaborators} (in_ : Params) (o : Options) : Options :=
  match GetInt64 in_ "maxDelete" with
  | (v, None) => set_MaxDelete (int_ v) o
  | _ => o
  end.

Definition flagsOpt `{Collaborators} (in_ : Params) (o : Options) : Options :=
  set_ConflictSuffixFlag (fst (GetString in_ "conflictsuffix"))
  (set_ConflictResolve (fst (GetPrefer "conflictresolve" in_))
  (set_BackupDir2 (fst (GetString in_ "backupdir2"))
  (set_BackupDir1 (fst (GetString in_ "backupdir1"))
  (set_Workdir (fst (GetString in_ "workdir"))
  (set_FiltersFile (fst (GetString in_ "filtersFile"))
  (set_CheckFilename (fst (GetString in_ "checkFilename"))
  (set_Recover (fst (GetBool in_ "recover"))
  (set_Resilient (fst (GetBool in_ "resilient"))
  (set_IgnoreListingChecksum (fst (GetBool in_ "ignoreListingChecksum"))
  (set_NoCleanup (fst (GetBool in_ "noCleanup"))
  (set_RemoveEmptyDirs (fst (GetBool in_ "removeEmptyDirs"))
  (set_CreateEmptySrcDirs (fst (GetBool in_ "createEmptySrcDirs"))
  (set_Force (fst (GetBool in_ "force"))
  (set_CheckAccess (fst (GetBool in_ "checkAccess"))
  (set_ResyncMode (fst (GetPrefer "resyncmode" in_))
  (set_Resync (fst (GetBool in_ "resync")) o)))))))))))))))).

(** The conflict policy a name stands for, as section 4.4 of the
    specification lists them. *)
Definition preferOf (name : string) : option Prefer :=
  if String.eqb name "none" then Some PreferNone
  else if String.eqb name "path1" then Some PreferPath1
  else if String.eqb name "path2" then Some PreferPath2
  else if String.eqb name "newer" then Some PreferNewer
  else if String.eqb name "older" then Some PreferOlder
  else if String.eqb name "larger" then Some PreferLarger
  else if String.eqb name "smaller" then Some PreferSmaller
  else None.

(** A string parameter is absent when its accessor reports the key as
    not found, which the [rc] accessors do with the zero value. *)
Definition absentString `{Collaborators} (in_ : Params) (key : string) : Prop :=
  exists e, GetString in_ key = ("", Some e) /\ IsErrParamNotFound e = true.

Definition isGetFsNamed `{ExtTypes} (ev : Event) : bool :=
  match ev with EvGetFsNamed _ _ => true | _ => false end.

Definition isBisync `{ExtTypes} (ev : Event) : bool :=
  match ev with EvBisync _ _ _ _ => true | _ => false end.

(** What a call of [rcBisync] on [in_] under [ci0] ends in.  When a key
    fails to decode, the call has returned [nil] and the first failing
    step's error without calling anything; otherwise the decoded bundle
    and configuration are in place and the call goes as far as
    [CheckSync.Set], the two resolutions and the engine let it. *)
Definition run_spec `{Collaborators} (ci0 : ConfigInfo) (in_ : Params) (st : St)
  : Prop :=
  ci st = reqConfig ci0 in_ /\
  DryRun (opt st) = DryRun (decodedOptions in_) /\
  (passes (snd (GetBool in_ "dryRun")) = true ->
   passes (maxDelete_err in_) = true ->
   MaxDelete (opt st) = MaxDelete (decodedOptions in_)) /\
  if keys_decode in_ then
    let c := reqConfig ci0 in_ in
    let arg := checkSyncArg in_ in
    let o := decodedOptions in_ in
    opt st = o /\
    match snd (CheckSync_Set CheckSyncZero arg) with
    | Some e =>
        out st = None /\ err st = Some e /\ trace st = [EvCheckSyncSet arg]
    | None =>
        let r1 := GetFsNamed c in_ "path1" in
        match snd r1 with
        | Some e =>
            out st = None /\ err st = Some e /\
            trace st = [EvCheckSyncSet arg; EvGetFsNamed c "path1"]
        | None =>
            let r2 := GetFsNamed c in_ "path2" in
            match snd r2 with
            | Some e =>
                out st = None /\ err st = Some e /\
                trace st = [EvCheckSyncSet arg; EvGetFsNamed c "path1";
                            EvGetFsNamed c "path2"]
            | None =>
                let r := Bisync c (fst r1) (fst r2) o in
                out st = Some {[ "output" := VString (fst r) ]} /\
                err st = snd r /\
                trace st = [EvCheckSyncSet arg; EvGetFsNamed c "path1";
                            EvGetFsNamed c "path2";
                            EvBisync c (fst r1) (fst r2) o;
                            EvLogWrite (fst r)]
            end
        end
    end
  else
    out st = None /\ err st = first_failure (decode_errors in_) /\
    trace st = [].

(** ** The keys a call reads

    The keys [rcBisync] hands to [GetBool] and to [GetString] (directly
    or through [GetPrefer]), and the two it hands to [rc.GetFsNamed];
    [maxDelete] is the one key read with [GetInt64]. *)
Definition boolKeys : list string := [
  "dryRun"; "resync"; "checkAccess"; "force"; "createEmptySrcDirs";
  "removeEmptyDirs"; "noCleanup"; "ignoreListingChecksum"; "resilient";
  "recover"
].

Definition stringKeys : list string := [
  "resyncmode"; "checkFilename"; "filtersFile"; "workdir"; "backupdir1";
  "backupdir2"; "conflictresolve"; "conflictsuffix"; "checkSync"
].

Definition pathKeys : list string := ["path1"; "path2"].

(** Two parameter maps on which every read of [rcBisync] gives the same
    answer. *)
Definition sameReads `{Collaborators} (in1 in2 : Params) : Prop :=
  Forall (fun k => GetBool in1 k = GetBool in2 k) boolKeys /\
  GetInt64 in1 "maxDelete" = GetInt64 in2 "maxDelete" /\
  Forall (fun k => GetString in1 k = GetString in2 k) stringKeys /\
  Forall (fun k => forall c, GetFsNamed c in1 k = GetFsNamed c in2 k) pathKeys.

(** Absence of a boolean and of an integer parameter, as [absentString]. *)
Definition absentBool `{Collaborators} (in_ : Params) (key : string) : Prop :=
  exists e, GetBool in_ key = (false, Some e) /\ IsErrParamNotFound e = true.

Definition absentInt64 `{Collaborators} (in_ : Params) (key : string) : Prop :=
  exists e, GetInt64 in_ key = (0, Some e) /\ IsErrParamNotFound e = true.

(** A parameter map that carries none of the options. *)
Definition noOptions `{Collaborators} (in_ : Params) : Prop :=
  Forall (absentBool in_) boolKeys /\
  absentInt64 in_ "maxDelete" /\
  Forall (absentString in_) stringKeys.

(** ** A reference implementation of the collaborators

    Modelled from the spec: the [rc] accessors, [CheckSyncMode],
    [rc.GetFsNamed] and the engine are not among the modelled sources.
    The accessors follow section 9 (a loosely-typed parameter map whose
    missing and invalid keys are told apart), a key being looked up as a
    Go map does it, byte for byte; each accessor takes the value of its
    own type.  [checkSync] is the on/off verification of section 6, a
    location resolves when it is named by a string, and the engine is a
    stand-in that refuses to reconcile a location with itself. *)
Module Ref.

Definition refGetBool (p : Params) (key : string) : bool * option error :=
  match p !! key with
  | None => (false, Some (ErrParamNotFound key))
  | Some (VBool b) => (b, None)
  | Some _ =>
      (false, Some (ErrParamInvalid
                      (fmt_Errorf "expecting bool value for key %q" [key])))
  end.

Definition refGetInt64 (p : Params) (key : string) : Z * option error :=
  match p !! key with
  | None => (0, Some (ErrParamNotFound key))
  | Some (VInt64 n) => (n, None)
  | Some _ =>
      (0, Some (ErrParamInvalid
                  (fmt_Errorf "expecting int64 value for key %q" [key])))
  end.

Definition refGetString (p : Params) (key : string) : string * option error :=
  match p !! key with
  | None => ("", Some (ErrParamNotFound key))
  | Some (VString s) => (s, None)
  | Some _ =>
      ("", Some (ErrParamInvalid
                   (fmt_Errorf "expecting string value for key %q" [key])))
  end.

Definition refTypes : ExtTypes := {|
  Fs := string;
  CheckSyncMode := bool;
  CheckSyncZero := false
|}.
#[local] Existing Instance refTypes.

Definition refCheckSyncSet (m : bool) (s : string) : bool * option error :=
  if String.eqb s "true" then (true, None)
  else if String.eqb s "false" then (false, None)
  else (m, Some (fmt_Errorf "unknown check-sync mode for bisync: %q" [s])).

Definition refGetFsNamed (c : ConfigInfo) (p : Params) (name : string)
  : string * option error :=
  refGetString p name.

Definition refBisync (c : ConfigInfo) (fs1 fs2 : string) (o : Options)
  : string * option error :=
  if String.eqb fs1 fs2 then
    ("bisync aborted", Some (ErrOther "path1 and path2 are the same location"))
  else ("bisync done", None).

Definition refCollaborators : Collaborators := {|
  GetBool := refGetBool;
  GetInt64 := refGetInt64;
  GetString := refGetString;
  CheckSync_Set := refCheckSyncSet;
  GetFsNamed := refGetFsNamed;
  Bisync := refBisync
|}.

(** Parameter maps and a configuration for evaluating a call. *)
Definition ciDefault : ConfigInfo := mkConfigInfo false false.

Definition sampleParams : Params :=
  list_to_map [
    ("dryRun", VBool true); ("maxDelete", VInt64 50);
    ("resyncmode", VString "path1"); ("conflictresolve", VString "newer");
    ("conflictsuffix", VString "mine");
    ("backupdir1", VString "bak1"); ("backupdir2", VString "bak2");
    ("path1", VString "a:"); ("path2", VString "b:")
  ].

Definition overLimitParams : Params :=
  list_to_map [
    ("maxDelete", VInt64 101); ("path1", VString "a:"); ("path2", VString "b:")
  ].

Definition camelCaseParams : Params :=
  list_to_map [
    ("resyncMode", VString "path1"); ("conflictResolve", VString "newer");
    ("conflictSuffix", VString "mine");
    ("backupDir1", VString "bak1"); ("backupDir2", VString "bak2");
    ("path1", VString "a:"); ("path2", VString "b:")
  ].

Definition noPath2Params : Params :=
  list_to_map [("path1", VString "a:")].

Definition samePathParams : Params :=
  list_to_map [("path1", VString "a:"); ("path2", VString "a:")].

Definition plainParams : Params :=
  list_to_map [("path1", VString "a:"); ("path2", VString "b:")].

Definition flagParams : Params :=
  list_to_map [
    ("resync", VBool true); ("force", VBool true);
    ("workdir", VString "/var/bisync");
    ("path1", VString "a:"); ("path2", VString "b:")
  ].

Definition twoBadParams : Params :=
  list_to_map [
    ("maxDelete", VInt64 101); ("resyncmode", VString "bogus");
    ("path1", VString "a:"); ("path2", VString "b:")
  ].

End Ref.

End Bisync.

(* ===================================================================== *)
(** * Properties of vfs/vfscommon/options.go                             *)
(* ===================================================================== *)

Module VfscommonSpec.
Import Go RcloneFs Vfscommon.

(** ** Bit-level facts *)

Lemma testbit_not32 (u n : Z) :
  0 <= n < 32 -> Z.testbit (not32 u) n = negb (Z.testbit u n).
Proof.
  intros Hn. unfold not32, uint32.
  rewrite Z.mod_pow2_bits_low by lia.
  apply Z.lnot_spec. lia.
Qed.

Lemma land_lor_absorb (x m : Z) : Z.land (Z.lor x m) m = m.
Proof.
  apply Z.bits_inj'. intros n Hn.
  rewrite Z.land_spec, Z.lor_spec.
  destruct (Z.testbit x n), (Z.testbit m n); reflexivity.
Qed.

Lemma ModePerm_bits (n : Z) : Z.testbit ModePerm n = true -> 0 <= n < 9.
Proof.
  intros Hb. destruct (Z.neg_nonneg_cases n) as [Hneg | Hpos].
  - rewrite Z.testbit_neg_r in Hb by lia. discriminate.
  - split; [assumption |].
    destruct (Z.lt_ge_cases n 9) as [Hlt | Hge]; [assumption |].
    change ModePerm with (Z.ones 9) in Hb.
    rewrite Z.ones_spec_high in Hb by lia. discriminate.
Qed.

(** Masking with the complement of [u] and then setting a type bit above
    the permission bits leaves no permission bit of [u]. *)
Lemma masked_perm_bits (p u t k n : Z) :
  9 <= k < 32 -> t = Z.shiftl 1 k ->
  Z.testbit ModePerm n = true -> Z.testbit u n = true ->
  Z.testbit (Z.lor (Z.land p (not32 u)) t) n = false.
Proof.
  intros Hk -> Hperm Hu. apply ModePerm_bits in Hperm.
  rewrite Z.lor_spec, Z.land_spec, testbit_not32 by lia.
  rewrite Hu. simpl. rewrite Bool.andb_false_r. simpl.
  rewrite Z.shiftl_spec by lia.
  apply Z.testbit_neg_r. lia.
Qed.

Lemma masked_perm_bits_plain (p u n : Z) :
  Z.testbit ModePerm n = true -> Z.testbit u n = true ->
  Z.testbit (Z.land p (not32 u)) n = false.
Proof.
  intros Hperm Hu. apply ModePerm_bits in Hperm.
  rewrite Z.land_spec, testbit_not32 by lia.
  rewrite Hu. apply Bool.andb_false_r.
Qed.

(** ** [strings.ToLower] on ASCII strings *)

Lemma lowerByte_ascii (c : ascii) :
  (N_of_ascii c <? RuneSelf)%N = true ->
  isUpperByte (lowerByte c) = false /\
  (RuneSelf <=? N_of_ascii (lowerByte c))%N = false /\
  lowerByte (lowerByte c) = lowerByte c.
Proof.
  destruct c as [[] [] [] [] [] [] [] []]; vm_compute;
    intros Hc; try discriminate Hc; repeat split.
Qed.

Lemma lowerByte_not_upper (c : ascii) :
  isUpperByte c = false -> lowerByte c = c.
Proof. unfold lowerByte. intros ->. reflexivity. Qed.

Lemma mapBytes_lower_no_upper (s : string) :
  hasUpper s = false -> mapBytes lowerByte s = s.
Proof.
  induction s as [| c r IH]; simpl; [reflexivity |].
  intros Hu. apply Bool.orb_false_iff in Hu as [Hc Hr].
  rewrite (lowerByte_not_upper c Hc), (IH Hr). reflexivity.
Qed.

Lemma ToLower_ascii (ul : string -> string) (s : string) :
  isASCII s = true -> ToLower ul s = mapBytes lowerByte s.
Proof.
  intros Ha. unfold ToLower. rewrite Ha.
  destruct (hasUpper s) eqn:Hu; simpl; [reflexivity |].
  symmetry. apply mapBytes_lower_no_upper. exact Hu.
Qed.

Lemma mapBytes_lower_ascii (s : string) :
  isASCII s = true ->
  isASCII (mapBytes lowerByte s) = true /\
  hasUpper (mapBytes lowerByte s) = false.
Proof.
  induction s as [| c r IH]; simpl; [split; reflexivity |].
  destruct (RuneSelf <=? N_of_ascii c)%N eqn:Hc; [discriminate |].
  intros Hr. destruct (IH Hr) as [IHa IHu].
  assert (Hlt : (N_of_ascii c <? RuneSelf)%N = true).
  { apply N.ltb_lt. apply N.leb_gt in Hc. exact Hc. }
  destruct (lowerByte_ascii c Hlt) as (Hup & Hlow & _).
  rewrite Hlow, Hup, IHa, IHu. split; reflexivity.
Qed.

Lemma ToLower_idempotent_ascii (ul : string -> string) (s : string) :
  isASCII s = true -> ToLower ul (ToLower ul s) = ToLower ul s.
Proof.
  intros Ha. rewrite (ToLower_ascii ul s Ha).
  destruct (mapBytes_lower_ascii s Ha) as [Ha' Hu'].
  unfold ToLower. rewrite Ha', Hu'. reflexivity.
Qed.

Section WithPlatform.
Context `{P : Platform}.

Lemma Set_by_lowercase (m : TempFileHandlingMode) (s t : string) :
  ToLower unicodeLower s = ToLower unicodeLower t -> sameOutcome m s t.
Proof.
  intros Heq. unfold sameOutcome, Set_. rewrite Heq.
  destruct (String.eqb _ "normal"); [split; [|split]; reflexivity |].
  destruct (String.eqb _ "safe"); [split; [|split]; reflexivity |].
  destruct (String.eqb _ "aggressive"); [split; [|split]; reflexivity |].
  simpl. split; [reflexivity |]. split; discriminate.
Qed.

Lemma Set_error_iff (m : TempFileHandlingMode) (s : string) :
  (exists e, snd (Set_ m s) = Some e) <->
  ~ (ToLower unicodeLower s = "normal" \/ ToLower unicodeLower s = "safe" \/
     ToLower unicodeLower s = "aggressive").
Proof.
  unfold Set_.
  destruct (String.eqb_spec (ToLower unicodeLower s) "normal") as [-> | Hn].
  { simpl. split; [intros [e He]; discriminate | intros Hc; exfalso; apply Hc; auto]. }
  destruct (String.eqb_spec (ToLower unicodeLower s) "safe") as [-> | Hs].
  { simpl. split; [intros [e He]; discriminate | intros Hc; exfalso; apply Hc; auto]. }
  destruct (String.eqb_spec (ToLower unicodeLower s) "aggressive") as [-> | Ha].
  { simpl. split; [intros [e He]; discriminate | intros Hc; exfalso; apply Hc; auto]. }
  simpl. split; [| eauto].
  intros _ [H | [H | H]]; congruence.
Qed.

Lemma String_cases (m : TempFileHandlingMode) :
  (m = TempFileNormal /\ String_ m = "normal") \/
  (m = TempFileSafe /\ String_ m = "safe") \/
  (m = TempFileAggressive /\ String_ m = "aggressive") \/
  (~ (0 <= m <= 2) /\ String_ m = "unknown").
Proof.
  unfold String_, TempFileNormal, TempFileSafe, TempFileAggressive.
  destruct (Z.eqb_spec m 0) as [-> | H0]; [auto |].
  destruct (Z.eqb_spec m 1) as [-> | H1]; [auto |].
  destruct (Z.eqb_spec m 2) as [-> | H2]; [auto 6 |].
  right; right; right. split; [lia | reflexivity].
Qed.

End WithPlatform.

Section Claims.
Context `{P : Platform}.

(** [Init] writes [Links] and the three permission fields, nothing else. *)
Lemma Init_frame (ci : ConfigInfo) (o : Options) :
  Init ci o =
  setPerms (Z.lor (Z.land (DirPerms o) (not32 (Umask o))) (FileMode ModeDir))
           (Z.land (FilePerms o) (not32 (Umask o)))
           (Z.lor (Z.land (LinkPerms o) (not32 (Umask o))) (FileMode ModeSymlink))
           (setLinks (ci_Links ci || Links o) o).
Proof.
  unfold Init. destruct o, (ci_Links ci); reflexivity.
Qed.

Lemma setters_same (o : Options) :
  setLinks (Links o) o = o /\
  setPerms (DirPerms o) (FilePerms o) (LinkPerms o) o = o.
Proof. destruct o. split; reflexivity. Qed.

Lemma setters_read (d f l : Z) (b : bool) (o : Options) :
  Links (setLinks b o) = b /\
  DirPerms (setPerms d f l o) = d /\
  FilePerms (setPerms d f l o) = f /\
  LinkPerms (setPerms d f l o) = l.
Proof. repeat split. Qed.

(** C8.  Every entry of the [OptionsInfo] table declares as its default
    the value that [DefaultOpt] holds in the field carrying the entry's
    name as its [config] tag, value and dynamic type alike; the names of
    the table are pairwise distinct, so the field is determined.  Among
    them: [dir_cache_time] is five minutes, [poll_interval] one minute,
    [vfs_cache_max_age] 3600 seconds, [vfs_read_chunk_size] 128 Mi,
    [vfs_cache_max_size] -1, and [vfs_case_insensitive] is true exactly
    on Windows and macOS.  The package-level [Opt] starts out equal to
    [DefaultOpt]. *)
Theorem OptionsInfo_defaults_agree :
  Forall (fun e => fieldByConfigTag DefaultOpt (Name e) = Some (Default e))
         OptionsInfo /\
  NoDup (map Name OptionsInfo) /\
  fieldByConfigTag DefaultOpt "dir_cache_time"
    = Some (DDuration (5 * 60 * 1000000000)) /\
  fieldByConfigTag DefaultOpt "poll_interval"
    = Some (DDuration (60 * 1000000000)) /\
  fieldByConfigTag DefaultOpt "vfs_cache_max_age"
    = Some (DDuration (3600 * 1000000000)) /\
  fieldByConfigTag DefaultOpt "vfs_read_chunk_size"
    = Some (DSizeSuffix (128 * 1024 * 1024)) /\
  fieldByConfigTag DefaultOpt "vfs_cache_max_size" = Some (DSizeSuffix (-1)) /\
  (fieldByConfigTag DefaultOpt "vfs_case_insensitive" = Some (DBool true) <->
   GOOS = "windows" \/ GOOS = "darwin") /\
  Opt = DefaultOpt.
Proof.
  split.
  { unfold OptionsInfo.
    repeat (apply List.Forall_cons; [reflexivity |]). apply List.Forall_nil. }
  split.
  { unfold OptionsInfo. cbn [map Name].
    apply (bool_decide_unpack _). vm_compute. exact I. }
  repeat (split; [reflexivity |]).
  split; [| reflexivity].
  change (fieldByConfigTag DefaultOpt "vfs_case_insensitive")
    with (Some (DBool (String.eqb GOOS "windows" || String.eqb GOOS "darwin"))).
  destruct (String.eqb_spec GOOS "windows") as [Hw | Hw];
    destruct (String.eqb_spec GOOS "darwin") as [Hd | Hd]; simpl;
    split; auto; intros H; try discriminate H;
    destruct H as [H | H]; contradiction.
Qed.

(** C9.  For every [Options] value and every global configuration, after
    [Init]: [DirPerms] has the directory bit [os.ModeDir] set and
    [LinkPerms] the symlink bit [os.ModeSymlink]; no permission bit (a
    bit of [os.ModePerm]) that is set in [Umask] is set in [DirPerms],
    [FilePerms] or [LinkPerms]; [Umask] itself is unchanged; and if the
    global [Links] flag is set then [Links] is true. *)
Theorem Init_masks_and_types (ci : ConfigInfo) (o : Options) :
  Z.land (DirPerms (Init ci o)) ModeDir = ModeDir /\
  Z.land (LinkPerms (Init ci o)) ModeSymlink = ModeSymlink /\
  (forall n : Z,
     Z.testbit ModePerm n = true -> Z.testbit (Umask (Init ci o)) n = true ->
     Z.testbit (DirPerms (Init ci o)) n = false /\
     Z.testbit (FilePerms (Init ci o)) n = false /\
     Z.testbit (LinkPerms (Init ci o)) n = false) /\
  Umask (Init ci o) = Umask o /\
  (ci_Links ci = true -> Links (Init ci o) = true).
Proof.
  assert (HU : Umask (Init ci o) = Umask o).
  { unfold Init. destruct (ci_Links ci); reflexivity. }
  assert (HD : DirPerms (Init ci o)
               = Z.lor (Z.land (DirPerms o) (not32 (Umask o))) (Z.shiftl 1 31)).
  { unfold Init. destruct (ci_Links ci); reflexivity. }
  assert (HF : FilePerms (Init ci o) = Z.land (FilePerms o) (not32 (Umask o))).
  { unfold Init. destruct (ci_Links ci); reflexivity. }
  assert (HL : LinkPerms (Init ci o)
               = Z.lor (Z.land (LinkPerms o) (not32 (Umask o))) (Z.shiftl 1 27)).
  { unfold Init. destruct (ci_Links ci); reflexivity. }
  rewrite HU, HD, HF, HL.
  split; [apply land_lor_absorb |].
  split; [apply land_lor_absorb |].
  split.
  { intros n Hperm Hu. repeat split.
    - apply (masked_perm_bits _ _ _ 31); [lia | reflexivity | assumption ..].
    - apply masked_perm_bits_plain; assumption.
    - apply (masked_perm_bits _ _ _ 27); [lia | reflexivity | assumption ..]. }
  split; [reflexivity |].
  intros Hl. unfold Init. rewrite Hl. reflexivity.
Qed.

(** C10.  For each of the three modes [TempFileNormal], [TempFileSafe],
    [TempFileAggressive], [Set] applied to the result of [String]
    succeeds and stores the same mode.  [Set] is case-insensitive: two
    arguments with the same lowercase form have the same outcome, and two
    ASCII arguments that differ only in the case of their letters have
    the same lowercase form, as have an ASCII argument and its lowercase
    form.  [Set] returns an error exactly for the
    strings whose lowercase form is none of normal, safe, aggressive.
    [String] of a mode outside the three yields unknown, which [Set]
    rejects leaving the receiver as it was, so the round trip holds for
    the three named modes only. *)
Theorem TempFileHandlingMode_roundtrip :
  (forall m0 m : TempFileHandlingMode,
     m = TempFileNormal \/ m = TempFileSafe \/ m = TempFileAggressive ->
     Set_ m0 (String_ m) = (m, None)) /\
  (forall (m0 : TempFileHandlingMode) (s t : string),
     ToLower unicodeLower s = ToLower unicodeLower t -> sameOutcome m0 s t) /\
  (forall s t : string,
     isASCII s = true -> isASCII t = true ->
     mapBytes lowerByte s = mapBytes lowerByte t ->
     ToLower unicodeLower s = ToLower unicodeLower t) /\
  (forall (m0 : TempFileHandlingMode) (s : string),
     isASCII s = true -> sameOutcome m0 s (ToLower unicodeLower s)) /\
  (forall (m0 : TempFileHandlingMode) (s : string),
     (exists e, snd (Set_ m0 s) = Some e) <->
     ~ (ToLower unicodeLower s = "normal" \/ ToLower unicodeLower s = "safe" \/
        ToLower unicodeLower s = "aggressive")) /\
  (forall m0 m : TempFileHandlingMode,
     ~ (m = TempFileNormal \/ m = TempFileSafe \/ m = TempFileAggressive) ->
     String_ m = "unknown" /\
     Set_ m0 (String_ m)
       = (m0, Some (fmt_Errorf "unknown temp file handling mode %q" ["unknown"]))) /\
  (forall m : TempFileHandlingMode,
     Set_ m (String_ m) = (m, None) <->
     m = TempFileNormal \/ m = TempFileSafe \/ m = TempFileAggressive).
Proof.
  assert (Hgood : forall m0 m : TempFileHandlingMode,
            m = TempFileNormal \/ m = TempFileSafe \/ m = TempFileAggressive ->
            Set_ m0 (String_ m) = (m, None)).
  { intros m0 m [-> | [-> | ->]]; reflexivity. }
  assert (Hbad : forall m0 m : TempFileHandlingMode,
            ~ (m = TempFileNormal \/ m = TempFileSafe \/ m = TempFileAggressive) ->
            String_ m = "unknown" /\
            Set_ m0 (String_ m)
              = (m0, Some (fmt_Errorf "unknown temp file handling mode %q"
                                      ["unknown"]))).
  { intros m0 m Hm.
    destruct (String_cases m) as [[-> _] | [[-> _] | [[-> _] | [_ Hs]]]];
      try (exfalso; apply Hm; auto; fail).
    rewrite Hs. split; reflexivity. }
  split; [exact Hgood |].
  split; [apply Set_by_lowercase |].
  split.
  { intros s t Hs Ht Heq.
    rewrite (ToLower_ascii _ s Hs), (ToLower_ascii _ t Ht). exact Heq. }
  split.
  { intros m0 s Hs. apply Set_by_lowercase. symmetry.
    apply ToLower_idempotent_ascii. exact Hs. }
  split; [apply Set_error_iff |].
  split; [exact Hbad |].
  intros m. split; [| apply Hgood].
  intros Hrt.
  destruct (String_cases m) as [[-> _] | [[-> _] | [[-> _] | [Hr _]]]]; auto.
  assert (Hm : ~ (m = TempFileNormal \/ m = TempFileSafe \/ m = TempFileAggressive)).
  { unfold TempFileNormal, TempFileSafe, TempFileAggressive. lia. }
  destruct (Hbad m m Hm) as [_ Hset]. rewrite Hset in Hrt. discriminate.
Qed.

End Claims.

(** The default table on a macOS build: the case-insensitive default is on. *)
Lemma OptionsInfo_defaults_agree_darwin :
  @fieldByConfigTag darwin (@DefaultOpt darwin) "vfs_case_insensitive"
    = Some (@DBool darwin true).
Proof.
  destruct (@OptionsInfo_defaults_agree darwin)
    as (_ & _ & _ & _ & _ & _ & _ & Hci & _).
  apply Hci. right. reflexivity.
Defined.

(** [Init] on the defaults of a Linux build with the global [--links]. *)
Lemma Init_masks_and_types_linux :
  @Links linux (@Init linux (mkConfigInfo false true) (@DefaultOpt linux)) = true /\
  Z.testbit (@DirPerms linux
               (@Init linux (mkConfigInfo false true) (@DefaultOpt linux))) 1 = false.
Proof.
  pose proof (@Init_masks_and_types linux (mkConfigInfo false true)
                (@DefaultOpt linux)) as (_ & _ & Hbits & _ & HL).
  split.
  - apply HL. reflexivity.
  - apply (Hbits 1); reflexivity.
Defined.

(** The round trip of [TempFileSafe], and [Set] on a mixed-case name. *)
Lemma TempFileHandlingMode_roundtrip_safe :
  @Set_ linux TempFileNormal (String_ TempFileSafe) = (TempFileSafe, None) /\
  @sameOutcome linux TempFileNormal "Aggressive" "AGGRESSIVE".
Proof.
  pose proof (@TempFileHandlingMode_roundtrip linux) as (Hrt & Hci & Hascii & _).
  split.
  - apply Hrt. right; left; reflexivity.
  - apply Hci. apply Hascii; reflexivity.
Defined.

End VfscommonSpec.

(* ===================================================================== *)
(** * Properties of cmd/bisync/rc.go                                     *)
(* ===================================================================== *)

Module BisyncSpec.
Import Go Rc RcloneFs Bisync.

Section Run.
Context `{T : ExtTypes} `{C : !Collaborators}.

(** ** Running one statement *)

Lemma passes_spec (e : option error) :
  NotErrParamNotFound e = negb (passes e).
Proof. unfold passes. symmetry. apply Bool.negb_involutive. Qed.

Lemma bind_run {A B : Type} (m : M A) (k : A -> M B) (s : St) :
  bind m k s = match m s with
               | Next a s' => k a s'
               | Return s' => Return s'
               end.
Proof. reflexivity. Qed.

Lemma assign_run {A : Type} (f : A -> Options -> Options)
      (r : A * option error) (s : St) :
  assign f r s =
  if passes (snd r) then
    Next tt (mkSt _ (f (fst r) (opt s)) (ci s) (out s) (snd r) (trace s))
  else
    Return (mkSt _ (f (fst r) (opt s)) (ci s) (out s) (snd r) (trace s)).
Proof.
  unfold assign, bind, modify_opt, set_err, naked_return, ret. cbn.
  rewrite passes_spec. destruct (passes (snd r)); reflexivity.
Qed.

Lemma bind_assign_run {A : Type} (f : A -> Options -> Options)
      (r : A * option error) (k : unit -> M unit) (s : St) :
  bind (assign f r) k s =
  if passes (snd r) then
    k tt (mkSt _ (f (fst r) (opt s)) (ci s) (out s) (snd r) (trace s))
  else
    Return (mkSt _ (f (fst r) (opt s)) (ci s) (out s) (snd r) (trace s)).
Proof.
  rewrite bind_run, assign_run. destruct (passes (snd r)); reflexivity.
Qed.

Lemma fails_is_error (e : option error) :
  passes e = false -> exists x, e = Some x /\ IsErrParamNotFound x = false.
Proof.
  destruct e as [x |]; [| discriminate].
  unfold passes, NotErrParamNotFound. intros H.
  apply Bool.negb_false_iff, Bool.negb_true_iff in H. eauto.
Qed.

Lemma first_failure_is_error (l : list (option error)) :
  forallb passes l = false ->
  exists x, first_failure l = Some x /\ IsErrParamNotFound x = false.
Proof.
  induction l as [| e r IH]; simpl; [discriminate |].
  destruct (passes e) eqn:He; simpl.
  - exact IH.
  - intros _. apply fails_is_error. exact He.
Qed.

(** ** Running the five blocks *)

Lemma dryRun_run (in_ : Params) (s : St) :
  rcBisync_dryRun in_ s =
  if passes (snd (GetBool in_ "dryRun")) then
    Next tt (mkSt _ (dryRunOpt in_ (opt s)) (reqConfig (ci s) in_)
                  (out s) (err s) (trace s))
  else
    Return (mkSt _ (opt s) (ci s) None (snd (GetBool in_ "dryRun")) (trace s)).
Proof.
  unfold rcBisync_dryRun, dryRunOpt, reqConfig.
  destruct (GetBool in_ "dryRun") as [b [x |]]; cbn [snd].
  - rewrite passes_spec. destruct (passes (Some x)); [| reflexivity].
    destruct s; reflexivity.
  - reflexivity.
Qed.

Lemma maxDelete_run (in_ : Params) (s : St) :
  rcBisync_maxDelete in_ s =
  if passes (maxDelete_err in_) then
    Next tt (mkSt _ (maxDeleteOpt in_ (opt s)) (ci s) (out s) (err s) (trace s))
  else
    Return (mkSt _ (opt s) (ci s) None (maxDelete_err in_) (trace s)).
Proof.
  unfold rcBisync_maxDelete, maxDeleteOpt, maxDelete_err.
  destruct (GetInt64 in_ "maxDelete") as [v [x |]].
  - rewrite passes_spec. destruct (passes (Some x)); [| reflexivity].
    destruct s; reflexivity.
  - destruct (Z.ltb v 0 || Z.gtb v 100); reflexivity.
Qed.

Ltac use_passes :=
  repeat match goal with
         | H : passes _ = _ |- _ => rewrite H
         end.

Ltac close_abort :=
  cbn [opt ci out err trace];
  unfold flag_errors; cbn [forallb first_failure]; use_passes;
  repeat split; reflexivity.

Ltac step_assign H :=
  lazymatch goal with
  | |- context [bind (assign ?f ?r) ?k ?s] =>
      rewrite (bind_assign_run f r k s);
      destruct (passes (snd r)) eqn:H;
      [ cbn [opt ci out err trace] | close_abort ]
  end.

Lemma flags_run (in_ : Params) (s : St) :
  match rcBisync_flags in_ s with
  | Next _ s' =>
      forallb passes (flag_errors in_) = true /\
      s' = mkSt _ (flagsOpt in_ (opt s)) (ci s) (out s)
                (snd (GetString in_ "conflictsuffix")) (trace s)
  | Return s' =>
      forallb passes (flag_errors in_) = false /\
      ci s' = ci s /\ out s' = out s /\ trace s' = trace s /\
      err s' = first_failure (flag_errors in_) /\
      DryRun (opt s') = DryRun (opt s) /\
      MaxDelete (opt s') = MaxDelete (opt s)
  end.
Proof.
  unfold rcBisync_flags.
  do 16 (let H := fresh "Hp" in step_assign H).
  rewrite assign_run.
  destruct (passes (snd (GetString in_ "conflictsuffix"))) eqn:Hlast;
    [| close_abort].
  unfold flag_errors; cbn [forallb]; use_passes. split; reflexivity.
Qed.

Lemma checkSync_run (in_ : Params) (s : St) :
  rcBisync_checkSync in_ s =
  if passes (snd (GetString in_ "checkSync")) then
    let arg := checkSyncArg in_ in
    let r := CheckSync_Set (CheckSync (opt s)) arg in
    match snd r with
    | None =>
        Next tt (mkSt _ (set_CheckSync (fst r) (opt s)) (ci s) (out s)
                      (snd (GetString in_ "checkSync"))
                      (trace s ++ [EvCheckSyncSet arg]))
    | Some e =>
        Return (mkSt _ (set_CheckSync (fst r) (opt s)) (ci s) None (Some e)
                     (trace s ++ [EvCheckSyncSet arg]))
    end
  else
    Return (mkSt _ (opt s) (ci s) None (snd (GetString in_ "checkSync"))
                 (trace s)).
Proof.
  unfold rcBisync_checkSync, checkSyncArg.
  destruct (GetString in_ "checkSync") as [cs e]. cbn [fst snd].
  rewrite bind_run. unfold set_err at 1. cbn [opt ci out err trace].
  rewrite passes_spec. destruct (passes e); cbn [negb]; [| reflexivity].
  unfold bind, get_opt, emit, modify_opt, return_, ret.
  cbn [opt ci out err trace].
  destruct (CheckSync_Set (CheckSync (opt s))
              (if String.eqb cs "" then "true" else cs)) as [m [x |]];
    reflexivity.
Qed.

Lemma paths_run (in_ : Params) (s : St) :
  final (rcBisync_paths in_ s) =
  let c := ci s in
  let r1 := GetFsNamed c in_ "path1" in
  match snd r1 with
  | Some e =>
      mkSt _ (opt s) c None (Some e) (trace s ++ [EvGetFsNamed c "path1"])
  | None =>
      let r2 := GetFsNamed c in_ "path2" in
      match snd r2 with
      | Some e =>
          mkSt _ (opt s) c None (Some e)
               ((trace s ++ [EvGetFsNamed c "path1"])
                  ++ [EvGetFsNamed c "path2"])
      | None =>
          let r := Bisync c (fst r1) (fst r2) (opt s) in
          mkSt _ (opt s) c (Some {[ "output" := VString (fst r) ]}) (snd r)
               ((((trace s ++ [EvGetFsNamed c "path1"])
                    ++ [EvGetFsNamed c "path2"])
                   ++ [EvBisync c (fst r1) (fst r2) (opt s)])
                  ++ [EvLogWrite (fst r)])
      end
  end.
Proof.
  unfold rcBisync_paths, bind, get_ci, get_opt, emit, set_err, return_.
  cbn [opt ci out err trace].
  destruct (GetFsNamed (ci s) in_ "path1") as [fs1 [x1 |]]; [reflexivity |].
  cbn [opt ci out err trace fst snd].
  destruct (GetFsNamed (ci s) in_ "path2") as [fs2 [x2 |]]; [reflexivity |].
  cbn [opt ci out err trace fst snd].
  destruct (Bisync (ci s) fs1 fs2 (opt s)) as [output e]. reflexivity.
Qed.

(** ** The decoded bundle, block by block *)

Lemma decodedOptions_blocks (in_ : Params) :
  decodedOptions in_ =
  set_CheckSync (fst (CheckSync_Set CheckSyncZero (checkSyncArg in_)))
    (flagsOpt in_ (maxDeleteOpt in_ (dryRunOpt in_ Options_zero))).
Proof.
  unfold decodedOptions, flagsOpt, maxDeleteOpt, dryRunOpt.
  destruct (GetBool in_ "dryRun") as [b [x |]];
    destruct (GetInt64 in_ "maxDelete") as [v [y |]]; reflexivity.
Qed.

Lemma DryRun_blocks (in_ : Params) :
  DryRun (dryRunOpt in_ Options_zero) = DryRun (decodedOptions in_) /\
  DryRun (maxDeleteOpt in_ (dryRunOpt in_ Options_zero))
  = DryRun (decodedOptions in_).
Proof.
  unfold decodedOptions, maxDeleteOpt, dryRunOpt.
  destruct (GetBool in_ "dryRun") as [b [x |]];
    destruct (GetInt64 in_ "maxDelete") as [v [y |]]; split; reflexivity.
Qed.

Lemma MaxDelete_blocks (in_ : Params) :
  MaxDelete (maxDeleteOpt in_ (dryRunOpt in_ Options_zero))
  = MaxDelete (decodedOptions in_).
Proof.
  unfold decodedOptions, maxDeleteOpt, dryRunOpt.
  destruct (GetBool in_ "dryRun") as [b [x |]];
    destruct (GetInt64 in_ "maxDelete") as [v [y |]]; reflexivity.
Qed.

Lemma CheckSync_blocks (in_ : Params) :
  CheckSync (flagsOpt in_ (maxDeleteOpt in_ (dryRunOpt in_ Options_zero)))
  = CheckSyncZero.
Proof.
  unfold flagsOpt, maxDeleteOpt, dryRunOpt.
  destruct (GetBool in_ "dryRun") as [b [x |]];
    destruct (GetInt64 in_ "maxDelete") as [v [y |]]; reflexivity.
Qed.

(** ** The whole call *)

Lemma first_failure_app (l1 l2 : list (option error)) :
  first_failure (l1 ++ l2) =
  if forallb passes l1 then first_failure l2 else first_failure l1.
Proof.
  induction l1 as [| e r IH]; cbn; [reflexivity |].
  destruct (passes e); cbn; [exact IH | reflexivity].
Qed.

Lemma rcBisync_run (ci0 : ConfigInfo) (in_ : Params) :
  run_spec ci0 in_ (rcBisync ci0 in_).
Proof.
  pose proof (DryRun_blocks in_) as [HD1 HD2].
  pose proof (MaxDelete_blocks in_) as HM.
  unfold run_spec, rcBisync, rcBisync_body, St_init, keys_decode, decode_errors.
  cbn [forallb first_failure].
  rewrite bind_run, dryRun_run. cbn [opt ci out err trace].
  destruct (passes (snd (GetBool in_ "dryRun"))) eqn:Hp1; cbn [andb final].
  2:{ cbn [opt ci out err trace]. unfold reqConfig, decodedOptions.
      destruct (GetBool in_ "dryRun") as [b [x |]]; [| discriminate Hp1].
      repeat split; try reflexivity. intros; discriminate. }
  rewrite bind_run, maxDelete_run. cbn [opt ci out err trace].
  destruct (passes (maxDelete_err in_)) eqn:Hp2; cbn [andb final].
  2:{ cbn [opt ci out err trace]. repeat split; try reflexivity; try assumption.
      intros; discriminate. }
  rewrite forallb_app, first_failure_app. cbn [forallb first_failure].
  rewrite bind_run.
  pose proof (flags_run in_
                (mkSt _ (maxDeleteOpt in_ (dryRunOpt in_ Options_zero))
                      (reqConfig ci0 in_) None None [])) as Hf.
  destruct (rcBisync_flags in_ _) as [u s3 | s3];
    cbn [opt ci out err trace] in Hf.
  2:{ destruct Hf as (Hk & Hci & Hout & Htr & Herr & HDR & HMD).
      rewrite Hk. cbn [andb final].
      repeat split; congruence. }
  destruct Hf as [Hk ->]. rewrite Hk. cbn [andb].
  rewrite bind_run, checkSync_run. cbn [opt ci out err trace].
  rewrite CheckSync_blocks.
  destruct (passes (snd (GetString in_ "checkSync"))) eqn:Hp4; cbn [andb final].
  2:{ cbn [opt ci out err trace].
      repeat split; try reflexivity; try assumption. intros _ _. exact HM. }
  rewrite <- decodedOptions_blocks.
  destruct (snd (CheckSync_Set CheckSyncZero (checkSyncArg in_))) as [x |] eqn:Hset;
    cbn [final opt ci out err trace].
  { repeat split; try reflexivity.
    all: rewrite ?decodedOptions_blocks; reflexivity. }
  rewrite paths_run. cbn [opt ci out err trace app].
  destruct (snd (GetFsNamed (reqConfig ci0 in_) in_ "path1")) as [x1 |];
    cbn [opt ci out err trace].
  { repeat split; reflexivity. }
  destruct (snd (GetFsNamed (reqConfig ci0 in_) in_ "path2")) as [x2 |];
    cbn [opt ci out err trace].
  { repeat split; reflexivity. }
  repeat split; reflexivity.
Qed.

(** ** Consequences for statements about a call *)

Lemma keys_decode_parts (in_ : Params) :
  keys_decode in_ = true ->
  passes (snd (GetBool in_ "dryRun")) = true /\
  passes (maxDelete_err in_) = true /\
  forallb passes (flag_errors in_) = true /\
  passes (snd (GetString in_ "checkSync")) = true.
Proof.
  unfold keys_decode, decode_errors. cbn [forallb].
  rewrite forallb_app. cbn [forallb].
  intros H.
  apply andb_prop in H as [H1 H]. apply andb_prop in H as [H2 H].
  apply andb_prop in H as [H3 H]. apply andb_prop in H as [H4 _].
  auto.
Qed.

Lemma params_decode_parts (in_ : Params) :
  params_decode in_ = true <->
  keys_decode in_ = true /\
  snd (CheckSync_Set CheckSyncZero (checkSyncArg in_)) = None.
Proof.
  unfold params_decode.
  destruct (keys_decode in_); cbn [andb];
    destruct (snd (CheckSync_Set CheckSyncZero (checkSyncArg in_)));
    split; try discriminate; try (intros [? ?]; discriminate); auto.
Qed.

(** What an event in the trace of a call tells about the call. *)
Lemma run_events (ci0 : ConfigInfo) (in_ : Params) (ev : Event) :
  ev ∈ trace (rcBisync ci0 in_) ->
  keys_decode in_ = true /\
  opt (rcBisync ci0 in_) = decodedOptions in_ /\
  match ev with
  | EvCheckSyncSet s => s = checkSyncArg in_
  | EvGetFsNamed c n =>
      params_decode in_ = true /\ c = reqConfig ci0 in_ /\
      (n = "path1" \/
       n = "path2" /\ snd (GetFsNamed (reqConfig ci0 in_) in_ "path1") = None)
  | EvBisync c fs1 fs2 o =>
      params_decode in_ = true /\ c = reqConfig ci0 in_ /\
      o = decodedOptions in_ /\
      GetFsNamed c in_ "path1" = (fs1, None) /\
      GetFsNamed c in_ "path2" = (fs2, None)
  | EvLogWrite output =>
      params_decode in_ = true /\
      exists fs1 fs2,
        output = fst (Bisync (reqConfig ci0 in_) fs1 fs2 (decodedOptions in_))
  end.
Proof.
  pose proof (rcBisync_run ci0 in_) as (_ & _ & _ & Hrun).
  intros Hev.
  destruct (keys_decode in_) eqn:Hk.
  2:{ destruct Hrun as (_ & _ & Htr). rewrite Htr in Hev.
      apply elem_of_nil in Hev. contradiction. }
  cbv zeta in Hrun. destruct Hrun as [Hopt Hrun].
  split; [reflexivity |]. split; [exact Hopt |].
  assert (Hpd : snd (CheckSync_Set CheckSyncZero (checkSyncArg in_)) = None ->
                params_decode in_ = true).
  { intros Hs. apply params_decode_parts. auto. }
  destruct (snd (CheckSync_Set CheckSyncZero (checkSyncArg in_))) as [x |] eqn:Hset.
  { destruct Hrun as (_ & _ & Htr). rewrite Htr in Hev.
    apply list_elem_of_singleton in Hev. subst ev. reflexivity. }
  specialize (Hpd eq_refl).
  destruct (GetFsNamed (reqConfig ci0 in_) in_ "path1") as [fs1 [x1 |]] eqn:H1;
    cbn [fst snd] in Hrun.
  { destruct Hrun as (_ & _ & Htr). rewrite Htr in Hev.
    repeat (apply elem_of_cons in Hev as [-> | Hev]); auto.
    apply elem_of_nil in Hev. contradiction. }
  destruct (GetFsNamed (reqConfig ci0 in_) in_ "path2") as [fs2 [x2 |]] eqn:H2;
    cbn [fst snd] in Hrun.
  { destruct Hrun as (_ & _ & Htr). rewrite Htr in Hev.
    repeat (apply elem_of_cons in Hev as [-> | Hev]); auto.
    apply elem_of_nil in Hev. contradiction. }
  destruct Hrun as (_ & _ & Htr). rewrite Htr in Hev.
  repeat (apply elem_of_cons in Hev as [-> | Hev]);
    try (apply elem_of_nil in Hev; contradiction); auto.
  split; [exact Hpd |]. eauto.
Qed.

Lemma int_small (v : Z) : 0 <= v <= 100 -> int_ v = v.
Proof. intros Hv. unfold int_. rewrite Z.mod_small; lia. Qed.

End Run.

Section Claims.
Context `{T : ExtTypes} `{C : !Collaborators}.

Lemma decode_abort (ci0 : ConfigInfo) (in_ : Params) :
  keys_decode in_ = false ->
  out (rcBisync ci0 in_) = None /\
  err (rcBisync ci0 in_) = first_failure (decode_errors in_) /\
  trace (rcBisync ci0 in_) = [].
Proof.
  intros Hk. pose proof (rcBisync_run ci0 in_) as (_ & _ & _ & Hrun).
  rewrite Hk in Hrun. exact Hrun.
Qed.

Lemma maxDelete_err_range (in_ : Params) (v : Z) :
  GetInt64 in_ "maxDelete" = (v, None) ->
  maxDelete_err in_ =
  if Z.ltb v 0 || Z.gtb v 100 then
    Some (NewErrParamInvalid
            (errors_New "maxDelete must be a percentage between 0 and 100"))
  else None.
Proof. intros H. unfold maxDelete_err. rewrite H. reflexivity. Qed.

Lemma out_of_range (v : Z) : v < 0 \/ 100 < v -> Z.ltb v 0 || Z.gtb v 100 = true.
Proof.
  intros [H | H].
  - apply Z.ltb_lt in H. rewrite H. reflexivity.
  - apply Bool.orb_true_iff. right. apply Z.gtb_lt. exact H.
Qed.

Lemma in_range (v : Z) : 0 <= v <= 100 -> Z.ltb v 0 || Z.gtb v 100 = false.
Proof.
  intros H. apply Bool.orb_false_iff. split.
  - apply Z.ltb_ge. lia.
  - rewrite Z.gtb_ltb. apply Z.ltb_ge. lia.
Qed.

(** C1.  For every parameter map in which [maxDelete] is present as an
    integer [v], the [dryRun] accessor failing only with a not-found or
    an invalid-parameter error: if [v] is outside 0..100, [rcBisync]
    returns a [nil] result and an invalid-parameter error without having
    called anything (no [CheckSync.Set], no resolution of [path1] or
    [path2], no [Bisync]), and the error is the range error whenever
    [dryRun] lets the call reach the check; if [v] is within 0..100, the
    bundle's [MaxDelete] is [v] once [dryRun] is passed, and it is [v]
    in the bundle of every call of the engine. *)
Theorem maxDelete_range_checked (ci0 : ConfigInfo) (in_ : Params) (v : Z) :
  GetInt64 in_ "maxDelete" = (v, None) ->
  (forall e, snd (GetBool in_ "dryRun") = Some e ->
             IsErrParamNotFound e = true \/ IsErrParamInvalid e = true) ->
  (v < 0 \/ 100 < v ->
   out (rcBisync ci0 in_) = None /\
   (exists e, err (rcBisync ci0 in_) = Some e /\ IsErrParamInvalid e = true) /\
   trace (rcBisync ci0 in_) = [] /\
   (passes (snd (GetBool in_ "dryRun")) = true ->
    err (rcBisync ci0 in_)
    = Some (NewErrParamInvalid
              (errors_New "maxDelete must be a percentage between 0 and 100"))))
  /\
  (0 <= v <= 100 ->
   (passes (snd (GetBool in_ "dryRun")) = true ->
    MaxDelete (opt (rcBisync ci0 in_)) = v) /\
   (forall c fs1 fs2 o,
      EvBisync c fs1 fs2 o ∈ trace (rcBisync ci0 in_) -> MaxDelete o = v)).
Proof.
  intros Hget Hcontract.
  pose proof (maxDelete_err_range in_ v Hget) as Herr.
  split.
  - intros Hv. rewrite (out_of_range v Hv) in Herr.
    assert (Hk : keys_decode in_ = false).
    { unfold keys_decode, decode_errors. cbn [forallb]. rewrite Herr.
      apply Bool.andb_false_r. }
    destruct (decode_abort ci0 in_ Hk) as (Hout & He & Htr).
    unfold decode_errors in He. cbn [first_failure] in He. rewrite Herr in He.
    split; [exact Hout |]. split; [| split; [exact Htr |]].
    + rewrite He.
      destruct (passes (snd (GetBool in_ "dryRun"))) eqn:Hp; cbn.
      * eexists. split; reflexivity.
      * destruct (fails_is_error _ Hp) as (x & Hx & Hnf).
        exists x. split; [exact Hx |].
        destruct (Hcontract x Hx) as [H | H]; [congruence | exact H].
    + intros Hp. rewrite He, Hp. reflexivity.
  - intros Hv. rewrite (in_range v Hv) in Herr.
    assert (HM : MaxDelete (decodedOptions in_) = v).
    { unfold decodedOptions. cbn [MaxDelete]. rewrite Hget. apply int_small, Hv. }
    split.
    + intros Hp. pose proof (rcBisync_run ci0 in_) as (_ & _ & Hmd & _).
      rewrite Hmd; [exact HM | exact Hp | rewrite Herr; reflexivity].
    + intros c fs1 fs2 o Hev.
      destruct (run_events ci0 in_ _ Hev) as (_ & _ & _ & _ & -> & _).
      exact HM.
Qed.


Lemma GetPrefer_preferOf (key : string) (p : Params) (str : string) :
  GetString p key = (str, None) ->
  GetPrefer key p =
  match preferOf str with
  | Some v => (v, None)
  | None =>
      (PreferNone,
       Some (ErrParamInvalid
               (fmt_Errorf "invalid prefer value %q for key %q" [str; key])))
  end.
Proof.
  intros H. unfold GetPrefer, preferOf. rewrite H.
  repeat (match goal with
          | |- context [String.eqb str ?n] => destruct (String.eqb str n)
          end; [reflexivity |]).
  reflexivity.
Qed.

(** C2.  For a string [str] present under [key], [GetPrefer] maps the
    seven names none, path1, path2, newer, older, larger, smaller to
    [PreferNone], [PreferPath1], [PreferPath2], [PreferNewer],
    [PreferOlder], [PreferLarger], [PreferSmaller] without error; these
    seven values are pairwise distinct; and for every other [str] it
    returns [PreferNone] with an invalid-parameter error that carries
    [str] and [key]. *)
Theorem GetPrefer_seven_names (key : string) (p : Params) (str : string) :
  GetString p key = (str, None) ->
  (str = "none" -> GetPrefer key p = (PreferNone, None)) /\
  (str = "path1" -> GetPrefer key p = (PreferPath1, None)) /\
  (str = "path2" -> GetPrefer key p = (PreferPath2, None)) /\
  (str = "newer" -> GetPrefer key p = (PreferNewer, None)) /\
  (str = "older" -> GetPrefer key p = (PreferOlder, None)) /\
  (str = "larger" -> GetPrefer key p = (PreferLarger, None)) /\
  (str = "smaller" -> GetPrefer key p = (PreferSmaller, None)) /\
  NoDup [PreferNone; PreferPath1; PreferPath2; PreferNewer; PreferOlder;
         PreferLarger; PreferSmaller] /\
  (str ∉ ["none"; "path1"; "path2"; "newer"; "older"; "larger"; "smaller"] ->
   GetPrefer key p =
   (PreferNone,
    Some (ErrParamInvalid
            (fmt_Errorf "invalid prefer value %q for key %q" [str; key])))).
Proof.
  intros H. rewrite (GetPrefer_preferOf key p str H).
  repeat (split; [intros ->; reflexivity |]).
  split.
  { apply (bool_decide_unpack _). vm_compute. exact I. }
  intros Hnot. unfold preferOf.
  repeat (match goal with
          | |- context [String.eqb str ?n] =>
              destruct (String.eqb_spec str n) as [-> | _];
              [exfalso; apply Hnot; set_solver |]
          end).
  reflexivity.
Qed.

Lemma run_decoded (ci0 : ConfigInfo) (in_ : Params) :
  keys_decode in_ = true ->
  opt (rcBisync ci0 in_) = decodedOptions in_ /\
  exists rest,
    trace (rcBisync ci0 in_) = EvCheckSyncSet (checkSyncArg in_) :: rest.
Proof.
  intros Hk. pose proof (rcBisync_run ci0 in_) as (_ & _ & _ & Hrun).
  rewrite Hk in Hrun. cbv zeta in Hrun. destruct Hrun as [Hopt Hrun].
  split; [exact Hopt |].
  destruct (snd (CheckSync_Set CheckSyncZero (checkSyncArg in_)));
    [destruct Hrun as (_ & _ & ->); eauto |].
  destruct (snd (GetFsNamed (reqConfig ci0 in_) in_ "path1"));
    [destruct Hrun as (_ & _ & ->); eauto |].
  destruct (snd (GetFsNamed (reqConfig ci0 in_) in_ "path2"));
    destruct Hrun as (_ & _ & ->); eauto.
Qed.

Lemma checkSync_passed (ci0 : ConfigInfo) (in_ : Params) (arg : string) :
  checkSyncArg in_ = arg ->
  checkSyncArg in_ = arg /\
  (forall s, EvCheckSyncSet s ∈ trace (rcBisync ci0 in_) -> s = arg) /\
  (keys_decode in_ = true ->
   exists rest,
     trace (rcBisync ci0 in_) = EvCheckSyncSet arg :: rest /\
     CheckSync (opt (rcBisync ci0 in_)) = fst (CheckSync_Set CheckSyncZero arg)).
Proof.
  intros Harg. split; [exact Harg |]. split.
  - intros s Hev. destruct (run_events ci0 in_ _ Hev) as (_ & _ & Hs).
    congruence.
  - intros Hk. destruct (run_decoded ci0 in_ Hk) as (Hopt & rest & Htr).
    exists rest. rewrite Htr, Hopt, Harg. unfold decodedOptions. cbn [CheckSync].
    rewrite Harg. auto.
Qed.

(** C3.  When [checkSync] is absent or the empty string, the string
    prepared for [CheckSync.Set] is true: no other string is ever handed
    to it, and once the keys decode it is called with true and its result
    is stored in the bundle.  A present non-empty value is handed over
    unchanged, in the same way.  When the keys decode and [Set] fails,
    [rcBisync] returns a [nil] result and the error of [Set], having
    called nothing after it. *)
Theorem checkSync_defaults_on (ci0 : ConfigInfo) (in_ : Params) :
  (absentString in_ "checkSync" \/ GetString in_ "checkSync" = ("", None) ->
   checkSyncArg in_ = "true" /\
   (forall s, EvCheckSyncSet s ∈ trace (rcBisync ci0 in_) -> s = "true") /\
   (keys_decode in_ = true ->
    exists rest,
      trace (rcBisync ci0 in_) = EvCheckSyncSet "true" :: rest /\
      CheckSync (opt (rcBisync ci0 in_))
      = fst (CheckSync_Set CheckSyncZero "true"))) /\
  (forall s,
     GetString in_ "checkSync" = (s, None) -> s <> "" ->
     checkSyncArg in_ = s /\
     (forall s', EvCheckSyncSet s' ∈ trace (rcBisync ci0 in_) -> s' = s) /\
     (keys_decode in_ = true ->
      exists rest,
        trace (rcBisync ci0 in_) = EvCheckSyncSet s :: rest /\
        CheckSync (opt (rcBisync ci0 in_))
        = fst (CheckSync_Set CheckSyncZero s))) /\
  (forall e,
     keys_decode in_ = true ->
     snd (CheckSync_Set CheckSyncZero (checkSyncArg in_)) = Some e ->
     out (rcBisync ci0 in_) = None /\
     err (rcBisync ci0 in_) = Some e /\
     trace (rcBisync ci0 in_) = [EvCheckSyncSet (checkSyncArg in_)]).
Proof.
  split; [| split].
  - intros Habs. apply checkSync_passed. unfold checkSyncArg.
    destruct Habs as [(e & -> & _) | ->]; reflexivity.
  - intros s Hs Hne. apply checkSync_passed. unfold checkSyncArg.
    rewrite Hs. cbn [fst].
    destruct (String.eqb_spec s ""); [contradiction | reflexivity].
  - intros e Hk Hset.
    pose proof (rcBisync_run ci0 in_) as (_ & _ & _ & Hrun).
    rewrite Hk in Hrun. cbv zeta in Hrun. rewrite Hset in Hrun.
    destruct Hrun as (_ & Hout & Herr & Htr). auto.
Qed.

Lemma flag_passes (in_ : Params) (e : option error) :
  keys_decode in_ = true -> In e (flag_errors in_) -> passes e = true.
Proof.
  intros Hk Hin. destruct (keys_decode_parts in_ Hk) as (_ & _ & Hf & _).
  rewrite forallb_forall in Hf. apply Hf. exact Hin.
Qed.

Lemma prefer_decoded (in_ : Params) (key s : string) :
  keys_decode in_ = true ->
  In (snd (GetPrefer key in_)) (flag_errors in_) ->
  GetString in_ key = (s, None) ->
  preferOf s = Some (fst (GetPrefer key in_)).
Proof.
  intros Hk Hin Hs. pose proof (flag_passes in_ _ Hk Hin) as Hp.
  rewrite (GetPrefer_preferOf key in_ s Hs) in Hp |- *.
  destruct (preferOf s); [reflexivity | discriminate Hp].
Qed.

(** C4, amended.  The five options are read under the lower-case keys
    resyncmode, conflictresolve, conflictsuffix, backupdir1, backupdir2.
    In every call whose keys decode, a string present under one of them
    sets the corresponding field of the bundle: [ResyncMode] and
    [ConflictResolve] to the policy the string names, [ConflictSuffixFlag],
    [BackupDir1] and [BackupDir2] to the string; and that bundle is the
    one the engine receives. *)
Theorem lowercase_keys_set_fields (ci0 : ConfigInfo) (in_ : Params) :
  keys_decode in_ = true ->
  (forall s, GetString in_ "resyncmode" = (s, None) ->
             preferOf s = Some (ResyncMode (opt (rcBisync ci0 in_)))) /\
  (forall s, GetString in_ "conflictresolve" = (s, None) ->
             preferOf s = Some (ConflictResolve (opt (rcBisync ci0 in_)))) /\
  (forall s, GetString in_ "conflictsuffix" = (s, None) ->
             ConflictSuffixFlag (opt (rcBisync ci0 in_)) = s) /\
  (forall s, GetString in_ "backupdir1" = (s, None) ->
             BackupDir1 (opt (rcBisync ci0 in_)) = s) /\
  (forall s, GetString in_ "backupdir2" = (s, None) ->
             BackupDir2 (opt (rcBisync ci0 in_)) = s) /\
  (forall c fs1 fs2 o,
     EvBisync c fs1 fs2 o ∈ trace (rcBisync ci0 in_) ->
     o = opt (rcBisync ci0 in_)).
Proof.
  intros Hk. destruct (run_decoded ci0 in_ Hk) as [Hopt _]. rewrite Hopt.
  unfold decodedOptions.
  cbn [ResyncMode ConflictResolve ConflictSuffixFlag BackupDir1 BackupDir2].
  split; [| split].
  - intros s Hs. apply prefer_decoded; [exact Hk | | exact Hs].
    unfold flag_errors. cbn. tauto.
  - intros s Hs. apply prefer_decoded; [exact Hk | | exact Hs].
    unfold flag_errors. cbn. tauto.
  - repeat split; try (intros s ->; reflexivity).
    intros c fs1 fs2 o Hev.
    destruct (run_events ci0 in_ _ Hev) as (_ & _ & _ & _ & -> & _).
    reflexivity.
Qed.

(** C5.  If [path1] or [path2] does not resolve (the key is missing or
    [rc.GetFsNamed] fails on it, under the configuration the call passes),
    [rcBisync] returns a [nil] result and an error, and the engine is not
    invoked.  A location is resolved only after every parameter has been
    decoded: whenever [rc.GetFsNamed] is called, the keys have been read,
    [CheckSync.Set] has succeeded and was called first, and the bundle is
    final. *)
Theorem paths_are_mandatory (ci0 : ConfigInfo) (in_ : Params) :
  (snd (GetFsNamed (reqConfig ci0 in_) in_ "path1") <> None \/
   snd (GetFsNamed (reqConfig ci0 in_) in_ "path2") <> None ->
   out (rcBisync ci0 in_) = None /\
   (exists e, err (rcBisync ci0 in_) = Some e) /\
   (forall ev, ev ∈ trace (rcBisync ci0 in_) -> isBisync ev = false)) /\
  (forall c name,
     EvGetFsNamed c name ∈ trace (rcBisync ci0 in_) ->
     params_decode in_ = true /\
     c = reqConfig ci0 in_ /\
     opt (rcBisync ci0 in_) = decodedOptions in_ /\
     exists rest,
       trace (rcBisync ci0 in_)
       = EvCheckSyncSet (checkSyncArg in_) :: EvGetFsNamed c "path1" :: rest).
Proof.
  split.
  - intros Hfail.
    assert (Hnb : forall ev, ev ∈ trace (rcBisync ci0 in_) -> isBisync ev = false).
    { intros ev Hev. destruct ev as [s | c n | c fs1 fs2 o | w]; try reflexivity.
      destruct (run_events ci0 in_ _ Hev) as (_ & _ & _ & -> & _ & H1 & H2).
      rewrite H1, H2 in Hfail. destruct Hfail as [H | H]; contradiction. }
    pose proof (rcBisync_run ci0 in_) as (_ & _ & _ & Hrun).
    destruct (keys_decode in_) eqn:Hk.
    2:{ destruct Hrun as (Hout & Herr & _). split; [exact Hout |].
        split; [| exact Hnb]. rewrite Herr.
        destruct (first_failure_is_error _ Hk) as (x & Hx & _). eauto. }
    cbv zeta in Hrun. destruct Hrun as [_ Hrun].
    destruct (snd (CheckSync_Set CheckSyncZero (checkSyncArg in_)));
      [destruct Hrun as (Hout & Herr & _); eauto |].
    destruct (snd (GetFsNamed (reqConfig ci0 in_) in_ "path1"));
      [destruct Hrun as (Hout & Herr & _); eauto |].
    destruct (snd (GetFsNamed (reqConfig ci0 in_) in_ "path2"));
      [destruct Hrun as (Hout & Herr & _); eauto |].
    destruct Hfail as [H | H]; contradiction.
  - intros c name Hev.
    destruct (run_events ci0 in_ _ Hev) as (Hk & Hopt & Hpd & -> & _).
    split; [exact Hpd |]. split; [reflexivity |]. split; [exact Hopt |].
    apply params_decode_parts in Hpd as [_ Hset].
    pose proof (rcBisync_run ci0 in_) as (_ & _ & _ & Hrun).
    rewrite Hk in Hrun. cbv zeta in Hrun. rewrite Hset in Hrun.
    destruct Hrun as [_ Hrun].
    destruct (snd (GetFsNamed (reqConfig ci0 in_) in_ "path1"));
      [destruct Hrun as (_ & _ & ->); eauto |].
    destruct (snd (GetFsNamed (reqConfig ci0 in_) in_ "path2"));
      destruct Hrun as (_ & _ & ->); eauto.
Qed.

(** C6.  When every parameter decodes and both locations resolve,
    [rcBisync] returns the map whose key output holds exactly the text
    captured around the run of [Bisync], together with the error of that
    run, whatever that error is; the engine runs once, on the decoded
    bundle and the two handles, and the same text goes to the log. *)
Theorem output_always_returned (ci0 : ConfigInfo) (in_ : Params) (fs1 fs2 : Fs) :
  params_decode in_ = true ->
  GetFsNamed (reqConfig ci0 in_) in_ "path1" = (fs1, None) ->
  GetFsNamed (reqConfig ci0 in_) in_ "path2" = (fs2, None) ->
  out (rcBisync ci0 in_)
  = Some {[ "output" :=
              VString (fst (Bisync (reqConfig ci0 in_) fs1 fs2
                                   (decodedOptions in_))) ]} /\
  (exists m, out (rcBisync ci0 in_) = Some m /\
             m !! "output"
             = Some (VString (fst (Bisync (reqConfig ci0 in_) fs1 fs2
                                          (decodedOptions in_))))) /\
  err (rcBisync ci0 in_)
  = snd (Bisync (reqConfig ci0 in_) fs1 fs2 (decodedOptions in_)) /\
  trace (rcBisync ci0 in_)
  = [EvCheckSyncSet (checkSyncArg in_);
     EvGetFsNamed (reqConfig ci0 in_) "path1";
     EvGetFsNamed (reqConfig ci0 in_) "path2";
     EvBisync (reqConfig ci0 in_) fs1 fs2 (decodedOptions in_);
     EvLogWrite (fst (Bisync (reqConfig ci0 in_) fs1 fs2 (decodedOptions in_)))].
Proof.
  intros Hpd H1 H2. apply params_decode_parts in Hpd as [Hk Hset].
  pose proof (rcBisync_run ci0 in_) as (_ & _ & _ & Hrun).
  rewrite Hk in Hrun. cbv zeta in Hrun. rewrite Hset, H1, H2 in Hrun.
  cbn [fst snd] in Hrun. destruct Hrun as (_ & Hout & Herr & Htr).
  split; [exact Hout |]. split; [| split; [exact Herr | exact Htr]].
  eexists. split; [exact Hout |]. apply lookup_singleton_eq.
Qed.

(** C7.  When [dryRun] is present as a boolean [b], both the
    request-scoped configuration's [DryRun] and the bundle's [DryRun] end
    up [b], and the engine sees them so.  When [dryRun] is absent, the
    configuration is the one the call started from and the bundle's
    [DryRun] is what [&Options{}] gave it.  A present value that is no
    boolean makes [rcBisync] return a [nil] result and the accessor's
    error at once. *)
Theorem dryRun_sets_both (ci0 : ConfigInfo) (in_ : Params) :
  (forall b,
     GetBool in_ "dryRun" = (b, None) ->
     ci_DryRun (ci (rcBisync ci0 in_)) = b /\
     DryRun (opt (rcBisync ci0 in_)) = b /\
     (forall c fs1 fs2 o,
        EvBisync c fs1 fs2 o ∈ trace (rcBisync ci0 in_) ->
        ci_DryRun c = b /\ DryRun o = b)) /\
  (forall b e,
     GetBool in_ "dryRun" = (b, Some e) -> IsErrParamNotFound e = true ->
     ci (rcBisync ci0 in_) = ci0 /\
     DryRun (opt (rcBisync ci0 in_)) = DryRun Options_zero) /\
  (forall b e,
     GetBool in_ "dryRun" = (b, Some e) -> IsErrParamNotFound e = false ->
     out (rcBisync ci0 in_) = None /\
     err (rcBisync ci0 in_) = Some e /\
     trace (rcBisync ci0 in_) = []).
Proof.
  pose proof (rcBisync_run ci0 in_) as (Hci & Hdr & _ & _).
  split; [| split].
  - intros b Hb.
    assert (Hc : ci_DryRun (reqConfig ci0 in_) = b).
    { unfold reqConfig. rewrite Hb. reflexivity. }
    assert (Ho : DryRun (decodedOptions in_) = b).
    { unfold decodedOptions. cbn [DryRun]. rewrite Hb. reflexivity. }
    rewrite Hci, Hdr. split; [exact Hc |]. split; [exact Ho |].
    intros c fs1 fs2 o Hev.
    destruct (run_events ci0 in_ _ Hev) as (_ & _ & _ & -> & -> & _). auto.
  - intros b e Hb _. rewrite Hci, Hdr. unfold reqConfig, decodedOptions.
    cbn [DryRun]. rewrite Hb. split; reflexivity.
  - intros b e Hb Hnf.
    assert (Hp : passes (snd (GetBool in_ "dryRun")) = false).
    { rewrite Hb. unfold passes, NotErrParamNotFound. cbn. rewrite Hnf. reflexivity. }
    assert (Hk : keys_decode in_ = false).
    { unfold keys_decode, decode_errors. cbn [forallb]. rewrite Hp. reflexivity. }
    destruct (decode_abort ci0 in_ Hk) as (Hout & Herr & Htr).
    unfold decode_errors in Herr. cbn [first_failure] in Herr.
    rewrite Hp, Hb in Herr. auto.
Qed.

End Claims.

(** ** Evaluation on the reference collaborators *)

Import Bisync.Ref.

(** [maxDelete] = 101 is refused before anything is called. *)
Lemma maxDelete_range_checked_over_limit :
  out (@rcBisync refTypes refCollaborators ciDefault overLimitParams) = None /\
  trace (@rcBisync refTypes refCollaborators ciDefault overLimitParams) = [].
Proof.
  destruct (@maxDelete_range_checked refTypes refCollaborators
              ciDefault overLimitParams 101) as [Hover _].
  - vm_compute. reflexivity.
  - intros e He. vm_compute in He. injection He as <-. left. reflexivity.
  - destruct Hover as (Hout & _ & Htr & _); [right; lia |].
    split; assumption.
Defined.

(** The name path1 under resyncmode. *)
Lemma GetPrefer_seven_names_path1 :
  @GetPrefer refTypes refCollaborators "resyncmode" sampleParams
  = (PreferPath1, None).
Proof.
  destruct (@GetPrefer_seven_names refTypes refCollaborators
              "resyncmode" sampleParams "path1") as (_ & H & _).
  - vm_compute. reflexivity.
  - apply H. reflexivity.
Defined.

(** No [checkSync] key: [Set] is called with true. *)
Lemma checkSync_defaults_on_sample :
  @checkSyncArg refTypes refCollaborators sampleParams = "true".
Proof.
  destruct (@checkSync_defaults_on refTypes refCollaborators
              ciDefault sampleParams) as (Habs & _).
  destruct Habs as (Harg & _); [| exact Harg].
  left. exists (ErrParamNotFound "checkSync"). split; vm_compute; reflexivity.
Defined.

(** The lower-case key backupdir1 reaches the bundle. *)
Lemma lowercase_keys_set_fields_sample :
  BackupDir1 (opt (@rcBisync refTypes refCollaborators ciDefault sampleParams))
  = "bak1".
Proof.
  destruct (@lowercase_keys_set_fields refTypes refCollaborators
              ciDefault sampleParams) as (_ & _ & _ & H & _).
  - vm_compute. reflexivity.
  - apply H. vm_compute. reflexivity.
Defined.

(** The camel-case spellings of the five keys leave the fields as
    [GetPrefer] and [GetString] return them for a missing key, in a call
    that succeeds and runs the engine on that bundle. *)
Lemma camelCase_keys_not_read :
  camelCaseParams !! "resyncMode" = Some (VString "path1") /\
  camelCaseParams !! "conflictResolve" = Some (VString "newer") /\
  camelCaseParams !! "conflictSuffix" = Some (VString "mine") /\
  camelCaseParams !! "backupDir1" = Some (VString "bak1") /\
  camelCaseParams !! "backupDir2" = Some (VString "bak2") /\
  err (@rcBisync refTypes refCollaborators ciDefault camelCaseParams) = None /\
  ResyncMode (opt (@rcBisync refTypes refCollaborators ciDefault camelCaseParams))
    <> PreferPath1 /\
  ConflictResolve (opt (@rcBisync refTypes refCollaborators ciDefault camelCaseParams))
    <> PreferNewer /\
  ConflictSuffixFlag (opt (@rcBisync refTypes refCollaborators ciDefault camelCaseParams))
    <> "mine" /\
  BackupDir1 (opt (@rcBisync refTypes refCollaborators ciDefault camelCaseParams))
    <> "bak1" /\
  BackupDir2 (opt (@rcBisync refTypes refCollaborators ciDefault camelCaseParams))
    <> "bak2" /\
  @EvBisync refTypes ciDefault "a:" "b:"
    (@set_CheckSync refTypes true (@Options_zero refTypes))
    ∈ trace (@rcBisync refTypes refCollaborators ciDefault camelCaseParams).
Proof.
  repeat (split; [vm_compute; first [reflexivity | discriminate] |]).
  vm_compute. set_solver.
Defined.

(** Without [path2] the call fails and the engine does not run. *)
Lemma paths_are_mandatory_no_path2 :
  out (@rcBisync refTypes refCollaborators ciDefault noPath2Params) = None.
Proof.
  destruct (@paths_are_mandatory refTypes refCollaborators
              ciDefault noPath2Params) as (Hfail & _).
  destruct Hfail as (Hout & _); [| exact Hout].
  right. vm_compute. discriminate.
Defined.

(** The engine fails on two equal locations; its text is returned with
    its error. *)
Lemma output_always_returned_on_failure :
  out (@rcBisync refTypes refCollaborators ciDefault samePathParams)
  = Some {[ "output" := VString "bisync aborted" ]} /\
  err (@rcBisync refTypes refCollaborators ciDefault samePathParams)
  = Some (ErrOther "path1 and path2 are the same location").
Proof.
  destruct (@output_always_returned refTypes refCollaborators
              ciDefault samePathParams "a:" "a:") as (Hout & _ & Herr & _).
  - vm_compute. reflexivity.
  - vm_compute. reflexivity.
  - vm_compute. reflexivity.
  - split; [exact Hout | exact Herr].
Defined.

(** [dryRun] = true reaches the configuration and the bundle. *)
Lemma dryRun_sets_both_true :
  ci_DryRun (ci (@rcBisync refTypes refCollaborators ciDefault sampleParams))
  = true /\
  DryRun (opt (@rcBisync refTypes refCollaborators ciDefault sampleParams))
  = true.
Proof.
  destruct (@dryRun_sets_both refTypes refCollaborators
              ciDefault sampleParams) as (Hset & _).
  destruct (Hset true) as (Hci & Hopt & _).
  - vm_compute. reflexivity.
  - split; [exact Hci | exact Hopt].
Defined.

End BisyncSpec.

(* ===================================================================== *)
(** * Further properties of vfs/vfscommon/options.go                     *)
(* ===================================================================== *)

Module VfscommonMore.
Import Go RcloneFs Vfscommon VfscommonSpec.

(** ** Masking twice, and the [uint32] range *)

Lemma remask_bits (d nu t : Z) :
  Z.lor (Z.land (Z.lor (Z.land d nu) t) nu) t = Z.lor (Z.land d nu) t.
Proof.
  apply Z.bits_inj'. intros n Hn.
  rewrite !Z.lor_spec, !Z.land_spec, !Z.lor_spec, !Z.land_spec.
  destruct (Z.testbit d n), (Z.testbit nu n), (Z.testbit t n); reflexivity.
Qed.

Lemma remask_plain (f nu : Z) : Z.land (Z.land f nu) nu = Z.land f nu.
Proof. rewrite <- Z.land_assoc, Z.land_diag. reflexivity. Qed.

Lemma uint32_range (z : Z) : 0 <= uint32 z < 2 ^ 32.
Proof. unfold uint32. apply Z.mod_pos_bound. lia. Qed.

Lemma land_range (a b : Z) : 0 <= a < 2 ^ 32 -> 0 <= Z.land a b < 2 ^ 32.
Proof.
  intros Ha.
  assert (Hl : Z.land a b = (Z.land a b) mod 2 ^ 32).
  { rewrite <- Z.land_ones by lia.
    rewrite (Z.land_comm a b), <- Z.land_assoc, Z.land_ones by lia.
    rewrite (Z.mod_small a) by lia. reflexivity. }
  rewrite Hl. apply Z.mod_pos_bound. lia.
Qed.

Lemma lor_range (a b : Z) :
  0 <= a < 2 ^ 32 -> 0 <= b < 2 ^ 32 -> 0 <= Z.lor a b < 2 ^ 32.
Proof.
  intros Ha Hb.
  assert (Hl : Z.lor a b = (Z.lor a b) mod 2 ^ 32).
  { rewrite <- !Z.land_ones by lia. rewrite Z.land_lor_distr_l.
    rewrite !Z.land_ones by lia. rewrite !Z.mod_small by lia. reflexivity. }
  rewrite Hl. apply Z.mod_pos_bound. lia.
Qed.

Section More.
Context `{P : Platform}.

(** X1.  [Init] is idempotent: a second call under the same global
    configuration changes nothing. *)
Theorem Init_idempotent (ci : ConfigInfo) (o : Options) :
  Init ci (Init ci o) = Init ci o.
Proof.
  rewrite !Init_frame. destruct o. cbn.
  rewrite !remask_bits, remask_plain.
  destruct (ci_Links ci); reflexivity.
Qed.

(** X2.  Bit by bit over the 32 bits of a [FileMode]: after [Init], a
    bit of [FilePerms] is set exactly when it was set and is not in
    [Umask]; the same holds of [DirPerms] and [LinkPerms], except that
    bit 31 ([os.ModeDir]) of [DirPerms] and bit 27 ([os.ModeSymlink]) of
    [LinkPerms] are set whatever [Umask] says. *)
Theorem Init_bits (ci : ConfigInfo) (o : Options) (n : Z) :
  0 <= n < 32 ->
  Z.testbit (DirPerms (Init ci o)) n
  = (Z.testbit (DirPerms o) n && negb (Z.testbit (Umask o) n)) || (n =? 31)%Z /\
  Z.testbit (FilePerms (Init ci o)) n
  = Z.testbit (FilePerms o) n && negb (Z.testbit (Umask o) n) /\
  Z.testbit (LinkPerms (Init ci o)) n
  = (Z.testbit (LinkPerms o) n && negb (Z.testbit (Umask o) n)) || (n =? 27)%Z.
Proof.
  intros Hn. rewrite Init_frame. cbn [DirPerms FilePerms LinkPerms setPerms].
  rewrite !Z.lor_spec, !Z.land_spec, !testbit_not32 by lia.
  change (FileMode ModeDir) with (2 ^ 31).
  change (FileMode ModeSymlink) with (2 ^ 27).
  rewrite !Z.pow2_bits_eqb by lia.
  rewrite (Z.eqb_sym 31 n), (Z.eqb_sym 27 n). repeat split.
Qed.

(** X3.  [Init] keeps the three permission fields within [uint32]. *)
Theorem Init_keeps_uint32 (ci : ConfigInfo) (o : Options) :
  0 <= DirPerms o < 2 ^ 32 -> 0 <= FilePerms o < 2 ^ 32 ->
  0 <= LinkPerms o < 2 ^ 32 ->
  0 <= DirPerms (Init ci o) < 2 ^ 32 /\
  0 <= FilePerms (Init ci o) < 2 ^ 32 /\
  0 <= LinkPerms (Init ci o) < 2 ^ 32.
Proof.
  intros Hd Hf Hl. rewrite Init_frame. cbn [DirPerms FilePerms LinkPerms setPerms].
  repeat split;
    try (apply lor_range; [| apply uint32_range]);
    try (apply land_range; lia).
Qed.


(** X4.  [Init] writes [Links], [DirPerms], [FilePerms] and [LinkPerms]
    only: every other tagged field, [TempFileHandling] and
    [TempFileTimeout] are as before; and [Links] is the old [Links] or
    the global flag, so [Init] never turns it off. *)
Theorem Init_touches_four_fields (ci : ConfigInfo) (o : Options) (name : string) :
  name <> "vfs_links" -> name <> "dir_perms" -> name <> "file_perms" ->
  name <> "link_perms" ->
  fieldByConfigTag (Init ci o) name = fieldByConfigTag o name /\
  TempFileHandling (Init ci o) = TempFileHandling o /\
  TempFileTimeout (Init ci o) = TempFileTimeout o /\
  Links (Init ci o) = ci_Links ci || Links o.
Proof.
  intros H1 H2 H3 H4. rewrite Init_frame.
  split; [| repeat split].
  unfold fieldByConfigTag, configFields.
  cbn [assoc NoSeek NoChecksum ReadOnly Links NoModTime DirCacheTime Refresh
       PollInterval Umask UID GID DirPerms FilePerms LinkPerms ChunkSize
       ChunkSizeLimit ChunkStreams CacheMode_ CacheMaxAge CacheMaxSize
       CacheMinFreeSpace CachePollInterval CaseInsensitive BlockNormDupes
       WriteWait ReadWait WriteBack ReadAhead UsedIsSize FastFingerprint
       DiskSpaceTotalSize setPerms setLinks].
  repeat match goal with
         | |- context [String.eqb ?k name] =>
             destruct (String.eqb_spec k name) as [Heq | _];
             [first [reflexivity | congruence] |]
         end.
  reflexivity.
Qed.

(** X5.  When [Set] succeeds on [s], the mode it stores is one of the
    three named modes, [String] of that mode is the lowercase form of
    [s], and the receiver's previous value plays no part. *)
Theorem Set_then_String (m0 m : TempFileHandlingMode) (s : string) :
  Set_ m0 s = (m, None) ->
  String_ m = ToLower unicodeLower s /\
  (m = TempFileNormal \/ m = TempFileSafe \/ m = TempFileAggressive) /\
  forall m1 : TempFileHandlingMode, Set_ m1 s = (m, None).
Proof.
  unfold Set_.
  destruct (String.eqb_spec (ToLower unicodeLower s) "normal") as [-> | _].
  { intros [= <-]. auto. }
  destruct (String.eqb_spec (ToLower unicodeLower s) "safe") as [-> | _].
  { intros [= <-]. auto. }
  destruct (String.eqb_spec (ToLower unicodeLower s) "aggressive") as [-> | _].
  { intros [= <-]. auto 6. }
  discriminate.
Qed.

(** X6.  When [Set] fails, the receiver keeps its value and the error
    quotes the argument as it was given, not its lowercase form. *)
Theorem Set_failure_keeps_mode (m0 : TempFileHandlingMode) (s : string) (e : error) :
  snd (Set_ m0 s) = Some e ->
  Set_ m0 s = (m0, Some (fmt_Errorf "unknown temp file handling mode %q" [s])).
Proof.
  unfold Set_.
  destruct (String.eqb _ "normal"); [discriminate |].
  destruct (String.eqb _ "safe"); [discriminate |].
  destruct (String.eqb _ "aggressive"); [discriminate |].
  reflexivity.
Qed.

(** X7.  The [OptionsInfo] table and the [config] tags of [Options] name
    the same options: a name has a tagged field exactly when the table
    has an entry of that name. *)
Theorem OptionsInfo_covers_tags (o : Options) (name : string) :
  is_Some (fieldByConfigTag o name) <-> name ∈ map Name OptionsInfo.
Proof.
  split.
  - unfold fieldByConfigTag, configFields. cbn [assoc].
    repeat match goal with
           | |- context [String.eqb ?k name] =>
               destruct (String.eqb_spec k name) as [<- | _];
               [intros _; apply (bool_decide_unpack _); vm_compute; exact I |]
           end.
    intros [x Hx]. discriminate.
  - unfold OptionsInfo. cbn [map Name]. intros Hin.
    repeat (apply elem_of_cons in Hin as [-> | Hin]; [eexists; reflexivity |]).
    apply elem_of_nil in Hin. contradiction.
Qed.

End More.

(** Bit 31 of [DirPerms] after [Init] on the defaults of a Linux build. *)
Lemma Init_bits_dir_bit :
  Z.testbit (@DirPerms linux
               (@Init linux (mkConfigInfo false false) (@DefaultOpt linux))) 31
  = true.
Proof.
  destruct (@Init_bits linux (mkConfigInfo false false) (@DefaultOpt linux) 31)
    as (Hd & _); [lia |].
  rewrite Hd. vm_compute. reflexivity.
Defined.

Lemma Init_keeps_uint32_defaults :
  0 <= @FilePerms linux
         (@Init linux (mkConfigInfo false false) (@DefaultOpt linux)) < 2 ^ 32.
Proof.
  destruct (@Init_keeps_uint32 linux (mkConfigInfo false false) (@DefaultOpt linux))
    as (_ & Hf & _).
  - change (0 <= 511 < 2 ^ 32). lia.
  - change (0 <= 438 < 2 ^ 32). lia.
  - change (0 <= 438 < 2 ^ 32). lia.
  - exact Hf.
Defined.

Lemma Init_touches_four_fields_umask :
  @fieldByConfigTag linux
    (@Init linux (mkConfigInfo false true) (@DefaultOpt linux)) "umask"
  = @fieldByConfigTag linux (@DefaultOpt linux) "umask".
Proof.
  destruct (@Init_touches_four_fields linux (mkConfigInfo false true)
              (@DefaultOpt linux) "umask") as (H & _);
    [discriminate | discriminate | discriminate | discriminate | exact H].
Defined.

Lemma Set_then_String_upper :
  String_ TempFileSafe = ToLower (@unicodeLower linux) "SAFE".
Proof.
  destruct (@Set_then_String linux TempFileNormal TempFileSafe "SAFE") as (H & _).
  - vm_compute. reflexivity.
  - exact H.
Defined.

Lemma Set_failure_keeps_mode_unknown :
  @Set_ linux TempFileAggressive "Unknown"
  = (TempFileAggressive,
     Some (fmt_Errorf "unknown temp file handling mode %q" ["Unknown"])).
Proof.
  apply (@Set_failure_keeps_mode linux TempFileAggressive "Unknown"
           (fmt_Errorf "unknown temp file handling mode %q" ["Unknown"])).
  vm_compute. reflexivity.
Defined.

Lemma OptionsInfo_covers_tags_umask :
  is_Some (@fieldByConfigTag linux (@DefaultOpt linux) "umask").
Proof.
  apply (@OptionsInfo_covers_tags linux).
  apply (bool_decide_unpack _). vm_compute. exact I.
Defined.

End VfscommonMore.

(* ===================================================================== *)
(** * Further properties of cmd/bisync/rc.go                             *)
(* ===================================================================== *)

Module BisyncMore.
Import Go Rc RcloneFs Bisync BisyncSpec.

Section More.
Context `{T : ExtTypes} `{C : !Collaborators}.

Lemma bind_ext {A B : Type} (m1 m2 : M A) (k1 k2 : A -> M B) (s : St) :
  (forall s', m1 s' = m2 s') -> (forall a s', k1 a s' = k2 a s') ->
  bind m1 k1 s = bind m2 k2 s.
Proof.
  intros Hm Hk. unfold bind. rewrite Hm. destruct (m2 s); [apply Hk | reflexivity].
Qed.

Ltac split_Forall H :=
  repeat match type of H with
         | Forall _ (_ :: _) =>
             let H1 := fresh "Hk" in
             apply Forall_cons_1 in H as [H1 H]
         end.

(** X8.  A call depends on its parameter map through its reads only: two
    maps that answer alike on the keys [rcBisync] reads, and resolve
    [path1] and [path2] alike, end in the same results, the same bundle
    and the same calls.  Whatever else a map carries is ignored. *)
Theorem rcBisync_reads_fixed_keys (ci0 : ConfigInfo) (in1 in2 : Params) :
  sameReads in1 in2 -> rcBisync ci0 in1 = rcBisync ci0 in2.
Proof.
  intros (Hb & Hi & Hs & Hp).
  unfold boolKeys in Hb. unfold stringKeys in Hs. unfold pathKeys in Hp.
  split_Forall Hb. split_Forall Hs. split_Forall Hp.
  unfold rcBisync. f_equal. unfold rcBisync_body.
  assert (Hd : forall s, rcBisync_dryRun in1 s = rcBisync_dryRun in2 s).
  { intros s. unfold rcBisync_dryRun. rewrite Hk. reflexivity. }
  assert (Hm : forall s, rcBisync_maxDelete in1 s = rcBisync_maxDelete in2 s).
  { intros s. unfold rcBisync_maxDelete. rewrite Hi. reflexivity. }
  assert (Hf : forall s, rcBisync_flags in1 s = rcBisync_flags in2 s).
  { intros s. unfold rcBisync_flags, GetPrefer.
    rewrite Hk0, Hk1, Hk2, Hk3, Hk4, Hk5, Hk6, Hk7, Hk8, Hk9, Hk10, Hk11,
      Hk12, Hk13, Hk14, Hk15, Hk16. reflexivity. }
  assert (Hc : forall s, rcBisync_checkSync in1 s = rcBisync_checkSync in2 s).
  { intros s. unfold rcBisync_checkSync. rewrite Hk17. reflexivity. }
  assert (Hr : forall s, rcBisync_paths in1 s = rcBisync_paths in2 s).
  { intros s. unfold rcBisync_paths, bind, get_ci. cbn [opt ci out err trace].
    rewrite Hk18, Hk19. reflexivity. }
  apply bind_ext; [exact Hd | intros _ s1].
  apply bind_ext; [exact Hm | intros _ s2].
  apply bind_ext; [exact Hf | intros _ s3].
  apply bind_ext; [exact Hc | intros _ s4].
  apply Hr.
Qed.


(** X9.  In a call whose keys decode, [Resync], [CheckAccess], [Force],
    [CreateEmptySrcDirs], [RemoveEmptyDirs], [NoCleanup],
    [IgnoreListingChecksum], [Resilient], [Recover], [CheckFilename],
    [FiltersFile] and [Workdir] hold what the accessor returned for
    resync, checkAccess, force, createEmptySrcDirs, removeEmptyDirs,
    noCleanup, ignoreListingChecksum, resilient, recover, checkFilename,
    filtersFile and workdir, and the engine receives that bundle. *)
Theorem flag_keys_set_fields (ci0 : ConfigInfo) (in_ : Params) :
  keys_decode in_ = true ->
  Resync (opt (rcBisync ci0 in_)) = fst (GetBool in_ "resync") /\
  CheckAccess (opt (rcBisync ci0 in_)) = fst (GetBool in_ "checkAccess") /\
  Force (opt (rcBisync ci0 in_)) = fst (GetBool in_ "force") /\
  CreateEmptySrcDirs (opt (rcBisync ci0 in_))
  = fst (GetBool in_ "createEmptySrcDirs") /\
  RemoveEmptyDirs (opt (rcBisync ci0 in_)) = fst (GetBool in_ "removeEmptyDirs") /\
  NoCleanup (opt (rcBisync ci0 in_)) = fst (GetBool in_ "noCleanup") /\
  IgnoreListingChecksum (opt (rcBisync ci0 in_))
  = fst (GetBool in_ "ignoreListingChecksum") /\
  Resilient (opt (rcBisync ci0 in_)) = fst (GetBool in_ "resilient") /\
  Recover (opt (rcBisync ci0 in_)) = fst (GetBool in_ "recover") /\
  CheckFilename (opt (rcBisync ci0 in_)) = fst (GetString in_ "checkFilename") /\
  FiltersFile (opt (rcBisync ci0 in_)) = fst (GetString in_ "filtersFile") /\
  Workdir (opt (rcBisync ci0 in_)) = fst (GetString in_ "workdir") /\
  (forall c fs1 fs2 o,
     EvBisync c fs1 fs2 o ∈ trace (rcBisync ci0 in_) ->
     o = opt (rcBisync ci0 in_)).
Proof.
  intros Hk. destruct (run_decoded ci0 in_ Hk) as [Hopt _]. rewrite Hopt.
  repeat (split; [reflexivity |]).
  intros c fs1 fs2 o Hev.
  destruct (run_events ci0 in_ _ Hev) as (_ & _ & _ & _ & -> & _). reflexivity.
Qed.

(** X10.  [rcBisync] never returns a [nil] result without an error; it
    returns a result map exactly when it has called the engine; and in
    one call the engine runs at most once and [rc.GetFsNamed] at most
    twice. *)
Theorem result_or_error (ci0 : ConfigInfo) (in_ : Params) :
  (out (rcBisync ci0 in_) = None -> exists e, err (rcBisync ci0 in_) = Some e) /\
  (out (rcBisync ci0 in_) <> None <->
   exists ev, ev ∈ trace (rcBisync ci0 in_) /\ isBisync ev = true) /\
  (length (List.filter isBisync (trace (rcBisync ci0 in_))) <= 1)%nat /\
  (length (List.filter isGetFsNamed (trace (rcBisync ci0 in_))) <= 2)%nat.
Proof.
  pose proof (rcBisync_run ci0 in_) as (_ & _ & _ & Hrun).
  destruct (keys_decode in_) eqn:Hk.
  2:{ destruct Hrun as (Hout & Herr & Htr). rewrite Hout, Herr, Htr.
      destruct (first_failure_is_error _ Hk) as (x & Hx & _).
      split; [eauto |]. split; [| split; cbn; lia].
      split; [congruence |]. intros (ev & Hev & _).
      apply elem_of_nil in Hev. contradiction. }
  cbv zeta in Hrun. destruct Hrun as [_ Hrun].
  destruct (snd (CheckSync_Set CheckSyncZero (checkSyncArg in_))).
  { destruct Hrun as (Hout & Herr & Htr). rewrite Hout, Herr, Htr.
    split; [eauto |]. split; [| split; cbn; lia].
    split; [congruence |]. intros (ev & Hev & Hb).
    apply list_elem_of_singleton in Hev. subst ev. discriminate. }
  destruct (snd (GetFsNamed (reqConfig ci0 in_) in_ "path1")).
  { destruct Hrun as (Hout & Herr & Htr). rewrite Hout, Herr, Htr.
    split; [eauto |]. split; [| split; cbn; lia].
    split; [congruence |]. intros (ev & Hev & Hb).
    repeat (apply elem_of_cons in Hev as [-> | Hev]; [discriminate |]).
    apply elem_of_nil in Hev. contradiction. }
  destruct (snd (GetFsNamed (reqConfig ci0 in_) in_ "path2")).
  { destruct Hrun as (Hout & Herr & Htr). rewrite Hout, Herr, Htr.
    split; [eauto |]. split; [| split; cbn; lia].
    split; [congruence |]. intros (ev & Hev & Hb).
    repeat (apply elem_of_cons in Hev as [-> | Hev]; [discriminate |]).
    apply elem_of_nil in Hev. contradiction. }
  destruct Hrun as (Hout & Herr & Htr). rewrite Hout, Htr.
  split; [discriminate |]. split; [| split; cbn; lia].
  split; [| discriminate]. intros _.
  exists (EvBisync (reqConfig ci0 in_)
            (fst (GetFsNamed (reqConfig ci0 in_) in_ "path1"))
            (fst (GetFsNamed (reqConfig ci0 in_) in_ "path2"))
            (decodedOptions in_)).
  split; [| reflexivity].
  do 3 apply list_elem_of_further. apply list_elem_of_here.
Qed.

(** X11.  The decoding steps fail in source order: if a step fails with
    an error that is not a not-found error and all steps before it pass,
    [rcBisync] returns [nil] and that very error, whatever the later keys
    hold, and has called nothing. *)
Theorem first_failing_key_wins (ci0 : ConfigInfo) (in_ : Params)
        (pre post : list (option error)) (e : option error) :
  decode_errors in_ = (pre ++ e :: post)%list ->
  forallb passes pre = true -> passes e = false ->
  out (rcBisync ci0 in_) = None /\
  err (rcBisync ci0 in_) = e /\
  trace (rcBisync ci0 in_) = [] /\
  exists x, e = Some x /\ IsErrParamNotFound x = false.
Proof.
  intros Hd Hpre He.
  assert (Hk : keys_decode in_ = false).
  { unfold keys_decode. rewrite Hd, forallb_app. cbn [forallb].
    rewrite Hpre, He. reflexivity. }
  destruct (decode_abort ci0 in_ Hk) as (Hout & Herr & Htr).
  rewrite Hd, first_failure_app, Hpre in Herr. cbn [first_failure] in Herr.
  rewrite He in Herr.
  split; [exact Hout |]. split; [exact Herr |]. split; [exact Htr |].
  apply fails_is_error. exact He.
Qed.

(** X12.  [GetPrefer] returns [PreferNone] whenever it returns an error;
    an error of [GetString] (missing key, value of another type) is
    passed on unchanged; and its error ends a call of [rcBisync] exactly
    when the accessor's does or the string present names no policy. *)
Theorem GetPrefer_errors (key : string) (p : Params) :
  (snd (GetPrefer key p) <> None -> fst (GetPrefer key p) = PreferNone) /\
  (forall s e, GetString p key = (s, Some e) ->
               GetPrefer key p = (PreferNone, Some e)) /\
  (passes (snd (GetPrefer key p)) = false <->
   passes (snd (GetString p key)) = false \/
   exists s, GetString p key = (s, None) /\ preferOf s = None).
Proof.
  split; [| split].
  - unfold GetPrefer. destruct (GetString p key) as [s [e |]]; [reflexivity |].
    repeat (match goal with
            | |- context [String.eqb s ?n] => destruct (String.eqb s n)
            end; [intros H; exfalso; apply H; reflexivity |]).
    reflexivity.
  - intros s e H. unfold GetPrefer. rewrite H. reflexivity.
  - destruct (GetString p key) as [s [e |]] eqn:Hs.
    + assert (Hg : GetPrefer key p = (PreferNone, Some e)).
      { unfold GetPrefer. rewrite Hs. reflexivity. }
      rewrite Hg. cbn [snd]. split; [auto |].
      intros [H | (s' & H & _)]; [exact H | discriminate H].
    + rewrite (GetPrefer_preferOf key p s Hs). cbn [snd].
      destruct (preferOf s) eqn:Hp; cbn [snd].
      * split; [discriminate |].
        intros [H | (s' & H & Hn)]; [discriminate H |].
        injection H as <-. congruence.
      * split; [| reflexivity]. intros _. right. eauto.
Qed.

(** X13.  Once the parameters are decoded, [path1] is resolved first: if
    that fails, [rcBisync] returns its error and [path2] is never
    resolved; if [path1] resolves and [path2] fails, the error is that of
    [path2].  Both resolutions see a configuration whose [Links] is the
    caller's. *)
Theorem paths_resolved_in_order (ci0 : ConfigInfo) (in_ : Params) :
  params_decode in_ = true ->
  (forall e,
     snd (GetFsNamed (reqConfig ci0 in_) in_ "path1") = Some e ->
     out (rcBisync ci0 in_) = None /\ err (rcBisync ci0 in_) = Some e /\
     trace (rcBisync ci0 in_)
     = [EvCheckSyncSet (checkSyncArg in_);
        EvGetFsNamed (reqConfig ci0 in_) "path1"]) /\
  (forall e,
     snd (GetFsNamed (reqConfig ci0 in_) in_ "path1") = None ->
     snd (GetFsNamed (reqConfig ci0 in_) in_ "path2") = Some e ->
     out (rcBisync ci0 in_) = None /\ err (rcBisync ci0 in_) = Some e /\
     trace (rcBisync ci0 in_)
     = [EvCheckSyncSet (checkSyncArg in_);
        EvGetFsNamed (reqConfig ci0 in_) "path1";
        EvGetFsNamed (reqConfig ci0 in_) "path2"]) /\
  ci_Links (reqConfig ci0 in_) = ci_Links ci0.
Proof.
  intros Hpd. apply params_decode_parts in Hpd as [Hk Hset].
  pose proof (rcBisync_run ci0 in_) as (_ & _ & _ & Hrun).
  rewrite Hk in Hrun. cbv zeta in Hrun. rewrite Hset in Hrun.
  destruct Hrun as [_ Hrun].
  split; [| split].
  - intros e H1. rewrite H1 in Hrun. exact Hrun.
  - intros e H1 H2. rewrite H1, H2 in Hrun. exact Hrun.
  - unfold reqConfig. destruct (GetBool in_ "dryRun") as [b [x |]]; reflexivity.
Qed.

(** X14.  When the [maxDelete] accessor reports a missing key, [MaxDelete]
    stays 0, in the bundle and in what the engine receives; when it
    fails otherwise and [dryRun] has passed, [rcBisync] returns [nil]
    and the accessor's error, having called nothing. *)
Theorem maxDelete_absent_or_invalid (ci0 : ConfigInfo) (in_ : Params)
        (v : Z) (e : error) :
  GetInt64 in_ "maxDelete" = (v, Some e) ->
  (IsErrParamNotFound e = true ->
   MaxDelete (opt (rcBisync ci0 in_)) = 0 /\
   forall c fs1 fs2 o,
     EvBisync c fs1 fs2 o ∈ trace (rcBisync ci0 in_) -> MaxDelete o = 0) /\
  (IsErrParamNotFound e = false ->
   passes (snd (GetBool in_ "dryRun")) = true ->
   out (rcBisync ci0 in_) = None /\ err (rcBisync ci0 in_) = Some e /\
   trace (rcBisync ci0 in_) = []).
Proof.
  intros Hget.
  assert (Hme : maxDelete_err in_ = Some e).
  { unfold maxDelete_err. rewrite Hget. reflexivity. }
  assert (HM : MaxDelete (decodedOptions in_) = 0).
  { unfold decodedOptions. cbn [MaxDelete]. rewrite Hget. reflexivity. }
  split.
  - intros Hnf. split.
    + pose proof (rcBisync_run ci0 in_) as (_ & _ & Hmd & Hrun).
      destruct (passes (snd (GetBool in_ "dryRun"))) eqn:Hp.
      * rewrite Hmd; [exact HM | reflexivity |].
        rewrite Hme. unfold passes, NotErrParamNotFound. rewrite Hnf. reflexivity.
      * unfold rcBisync, rcBisync_body.
        rewrite bind_run, dryRun_run, Hp. reflexivity.
    + intros c fs1 fs2 o Hev.
      destruct (run_events ci0 in_ _ Hev) as (_ & _ & _ & _ & -> & _).
      exact HM.
  - intros Hnf Hp.
    assert (He : passes (Some e) = false).
    { unfold passes, NotErrParamNotFound. rewrite Hnf. reflexivity. }
    assert (Hk : keys_decode in_ = false).
    { unfold keys_decode, decode_errors. cbn [forallb].
      rewrite Hp, Hme, He. reflexivity. }
    destruct (decode_abort ci0 in_ Hk) as (Hout & Herr & Htr).
    unfold decode_errors in Herr. cbn [first_failure] in Herr.
    rewrite Hp, Hme, He in Herr. auto.
Qed.


(** X15.  On a parameter map that carries none of the options, the keys
    decode, [CheckSync.Set] is given true, the request configuration is
    the caller's, and the bundle, also the one the engine receives, is
    [&Options{}] with [CheckSync] as [Set] left it. *)
Theorem no_options_defaults (ci0 : ConfigInfo) (in_ : Params) :
  noOptions in_ ->
  keys_decode in_ = true /\
  checkSyncArg in_ = "true" /\
  ci (rcBisync ci0 in_) = ci0 /\
  opt (rcBisync ci0 in_)
  = set_CheckSync (fst (CheckSync_Set CheckSyncZero "true")) Options_zero /\
  (forall c fs1 fs2 o,
     EvBisync c fs1 fs2 o ∈ trace (rcBisync ci0 in_) ->
     c = ci0 /\
     o = set_CheckSync (fst (CheckSync_Set CheckSyncZero "true")) Options_zero).
Proof.
  intros (Hb & Hi & Hs).
  unfold boolKeys in Hb. unfold stringKeys in Hs.
  split_Forall Hb. split_Forall Hs.
  repeat match goal with
         | H : absentBool _ _ |- _ => destruct H as (? & ? & ?)
         | H : absentInt64 _ _ |- _ => destruct H as (? & ? & ?)
         | H : absentString _ _ |- _ => destruct H as (? & ? & ?)
         end.
  assert (Hk : keys_decode in_ = true).
  { unfold keys_decode, decode_errors, flag_errors, maxDelete_err, GetPrefer.
    repeat match goal with
           | H : _ = (_, _) |- _ => rewrite H
           end.
    unfold passes, NotErrParamNotFound. cbn [forallb app fst snd].
    repeat match goal with
           | H : IsErrParamNotFound _ = true |- _ => rewrite H; clear H
           end.
    reflexivity. }
  assert (Ha : checkSyncArg in_ = "true").
  { unfold checkSyncArg.
    match goal with H : GetString in_ "checkSync" = _ |- _ => rewrite H end.
    reflexivity. }
  assert (Hc : reqConfig ci0 in_ = ci0).
  { unfold reqConfig.
    match goal with H : GetBool in_ "dryRun" = _ |- _ => rewrite H end.
    reflexivity. }
  assert (Ho : decodedOptions in_
               = set_CheckSync (fst (CheckSync_Set CheckSyncZero "true"))
                               Options_zero).
  { unfold decodedOptions, GetPrefer. rewrite Ha.
    repeat match goal with
           | H : _ = (_, _) |- _ => rewrite H
           end.
    reflexivity. }
  pose proof (rcBisync_run ci0 in_) as (Hci & _ & _ & _).
  destruct (run_decoded ci0 in_ Hk) as [Hopt _].
  split; [exact Hk |]. split; [exact Ha |].
  split; [congruence |]. split; [congruence |].
  intros c fs1 fs2 o Hev.
  destruct (run_events ci0 in_ _ Hev) as (_ & _ & _ & -> & -> & _).
  auto.
Qed.

End More.

(** ** Evaluation on the reference collaborators *)

Import Bisync.Ref.

(** The five camel-case keys make no difference to a call. *)
Lemma rcBisync_reads_fixed_keys_camelCase :
  @rcBisync refTypes refCollaborators ciDefault camelCaseParams
  = @rcBisync refTypes refCollaborators ciDefault plainParams.
Proof.
  apply (@rcBisync_reads_fixed_keys refTypes refCollaborators).
  repeat split; repeat constructor; intros; vm_compute; reflexivity.
Defined.

Lemma flag_keys_set_fields_sample :
  Force (opt (@rcBisync refTypes refCollaborators ciDefault flagParams)) = true.
Proof.
  destruct (@flag_keys_set_fields refTypes refCollaborators ciDefault flagParams)
    as (_ & _ & H & _).
  - vm_compute. reflexivity.
  - rewrite H. vm_compute. reflexivity.
Defined.

Lemma result_or_error_no_path2 :
  exists e,
    err (@rcBisync refTypes refCollaborators ciDefault noPath2Params) = Some e.
Proof.
  destruct (@result_or_error refTypes refCollaborators ciDefault noPath2Params)
    as (H & _).
  apply H. vm_compute. reflexivity.
Defined.

(** [maxDelete] out of range comes before an unknown policy name. *)
Lemma first_failing_key_wins_maxDelete :
  err (@rcBisync refTypes refCollaborators ciDefault twoBadParams)
  = Some (NewErrParamInvalid
            (errors_New "maxDelete must be a percentage between 0 and 100")).
Proof.
  destruct (@first_failing_key_wins refTypes refCollaborators
              ciDefault twoBadParams
              [Some (ErrParamNotFound "dryRun")]
              (skipn 2 (@decode_errors refTypes refCollaborators twoBadParams))
              (Some (NewErrParamInvalid
                       (errors_New
                          "maxDelete must be a percentage between 0 and 100"))))
    as (_ & H & _).
  - vm_compute. reflexivity.
  - vm_compute. reflexivity.
  - vm_compute. reflexivity.
  - exact H.
Defined.

Lemma GetPrefer_errors_missing :
  @GetPrefer refTypes refCollaborators "resyncmode" plainParams
  = (PreferNone, Some (ErrParamNotFound "resyncmode")).
Proof.
  destruct (@GetPrefer_errors refTypes refCollaborators "resyncmode" plainParams)
    as (_ & H & _).
  apply (H ""). vm_compute. reflexivity.
Defined.

Lemma paths_resolved_in_order_no_path2 :
  err (@rcBisync refTypes refCollaborators ciDefault noPath2Params)
  = Some (ErrParamNotFound "path2").
Proof.
  destruct (@paths_resolved_in_order refTypes refCollaborators
              ciDefault noPath2Params) as (_ & H & _).
  - vm_compute. reflexivity.
  - destruct (H (ErrParamNotFound "path2")) as (_ & Herr & _).
    + vm_compute. reflexivity.
    + vm_compute. reflexivity.
    + exact Herr.
Defined.

Lemma maxDelete_absent_or_invalid_plain :
  MaxDelete (opt (@rcBisync refTypes refCollaborators ciDefault plainParams)) = 0.
Proof.
  destruct (@maxDelete_absent_or_invalid refTypes refCollaborators
              ciDefault plainParams 0 (ErrParamNotFound "maxDelete")) as (H & _).
  - vm_compute. reflexivity.
  - destruct H as (H & _); [reflexivity | exact H].
Defined.

Lemma no_options_defaults_plain :
  ci (@rcBisync refTypes refCollaborators ciDefault plainParams) = ciDefault.
Proof.
  destruct (@no_options_defaults refTypes refCollaborators ciDefault plainParams)
    as (_ & _ & H & _).
  - repeat split; repeat constructor; eexists; split; vm_compute; reflexivity.
  - exact H.
Defined.

End BisyncMore.
